(** * Channel descriptors and event codec of the Open Ephys plugin GUI

    A shallow embedding of [Source/Processors/Channel/InfoObjects.cpp]
    (the channel descriptor classes) and of the event classes declared in
    [Source/Processors/Events/Events.h], followed by the properties the
    design document states about them.

    Conventions.
    - [unsigned int], [uint16], [uint64] and [size_t] values are integers
      of [Z]; arithmetic that the C++ performs in a fixed width is followed
      by an explicit [wrap].  [unsigned int] is 32 bits wide; the width of
      [size_t] depends on the target and is a parameter, [size_t_bits].
    - [float] values are IEEE-754 binary32 numbers ([spec_float] at
      precision 24); the descriptor code only stores them.
    - JUCE [String]s are [string]s, JUCE [Array]s are [list]s.
    - A class becomes a module holding a record [t] of its data members
      (base classes as nested records) and its member functions as
      functions from the object before the call to the object after it. *)

From Stdlib Require Import ZArith QArith Qround Lia List String Ascii Bool.
From Stdlib Require Import Floats.SpecFloat.
From coqutil Require Import Byte Word.LittleEndianList.
Import ListNotations.
Local Close Scope Q_scope.
Local Open Scope Z_scope.

(* ================================================================== *)
(** * Machine types *)
(* ================================================================== *)

Module CTypes.

(** Reduction of an integer to [bits] bits, as every unsigned C++
    operation and conversion does. *)
Definition wrap (bits z : Z) : Z := z mod 2 ^ bits.

(** Width of [unsigned int] on every target the GUI is built for. *)
Definition unsigned_int_bits : Z := 32.

(** The values of an unsigned type of the given width. *)
Definition in_range (bits z : Z) : Prop := 0 <= z < 2 ^ bits.

Definition is_uint16 (z : Z) : Prop := in_range 16 z.
Definition is_unsigned_int (z : Z) : Prop := in_range unsigned_int_bits z.
Definition is_uint64 (z : Z) : Prop := in_range 64 z.

(** [float]: IEEE-754 binary32. *)
Definition float : Type := spec_float.
Definition float_prec : Z := 24.
Definition float_emax : Z := 128.

(** Conversion of an integer constant to [float] (round to nearest even),
    as the compiler does for [1.0f] and for the [int] argument of
    [setSampleRate(44100)]. *)
Definition float_of_Z (z : Z) : float :=
  binary_normalize float_prec float_emax z 0 false.

(** The floats a [float] object can hold: canonical mantissa and
    exponent within the binary32 range. *)
Definition is_float (x : float) : Prop :=
  valid_binary float_prec float_emax x = true.

(** The 32-bit pattern of a [float] (sign, 8 exponent bits biased by 127,
    23 fraction bits); a NaN is written as the quiet NaN. *)
Definition sign_bit (s : bool) : Z := if s then 2 ^ 31 else 0.

Definition bits_of_float (x : float) : Z :=
  match x with
  | S754_zero s => sign_bit s
  | S754_infinity s => sign_bit s + 255 * 2 ^ 23
  | S754_nan => 255 * 2 ^ 23 + 2 ^ 22
  | S754_finite s m e =>
      if Z.pos m <? 2 ^ 23
      then sign_bit s + Z.pos m
      else sign_bit s + (e + 150) * 2 ^ 23 + (Z.pos m - 2 ^ 23)
  end.

(** The [float] a 32-bit pattern denotes. *)
Definition float_of_bits (w : Z) : float :=
  let s := Z.testbit w 31 in
  let biased := (w / 2 ^ 23) mod 2 ^ 8 in
  let fraction := w mod 2 ^ 23 in
  if biased =? 0 then
    match fraction with
    | Z.pos m => S754_finite s m (-149)
    | _ => S754_zero s
    end
  else if biased =? 255 then
    if fraction =? 0 then S754_infinity s else S754_nan
  else
    match 2 ^ 23 + fraction with
    | Z.pos m => S754_finite s m (biased - 150)
    | _ => S754_nan
    end.

End CTypes.

(* ================================================================== *)
(** * Channel descriptors (InfoObjects.cpp) *)
(* ================================================================== *)

(** The [jassert] macro of the JUCE library is defined outside the sources
    at hand.  A constructor that asserts has no [return] and no [throw]
    after the macro: whatever the macro reports, the statements that
    follow it run.  The model keeps the outcome of the checks beside the
    object that is built. *)
Record asserted (A : Type) : Type := {
  built : A;
  assertions_held : bool
}.
Arguments built {A} _.
Arguments assertions_held {A} _.

(** An object built without a failed assertion. *)
Definition Constructed {A : Type} (a : A) : asserted A :=
  {| built := a; assertions_held := true |}.

Definition jassert {A : Type} (cond : bool) (k : asserted A) : asserted A :=
  {| built := built k; assertions_held := cond && assertions_held k |}.

(** What the descriptor constructors read of a [GenericProcessor]
    ([source->nodeId], [source->getNodeId()], [source->getName()]). *)
Module GenericProcessor.
Record t : Type := { nodeId : Z; name : string }.
Definition getNodeId (p : t) : Z := nodeId p.
Definition getName (p : t) : string := name p.
End GenericProcessor.

Module NodeInfoBase.
Record t : Type := { m_nodeID : Z }.

(** [NodeInfoBase::NodeInfoBase(uint16 id)] *)
Definition ctor (id : Z) : t := {| m_nodeID := CTypes.wrap 16 id |}.

Definition getCurrentNodeID (o : t) : Z := m_nodeID o.
End NodeInfoBase.

Module HistoryObject.
Record t : Type := { m_historicString : string }.

(** [String::isEmpty] *)
Definition isEmpty (s : string) : bool :=
  match s with EmptyString => true | String _ _ => false end.

Definition getHistoricString (o : t) : string := m_historicString o.

(** [HistoryObject::addToHistoricString] *)
Definition addToHistoricString (o : t) (entry : string) : t :=
  if isEmpty (m_historicString o)
  then {| m_historicString := entry |}
  else {| m_historicString := m_historicString o ++ (" -> " ++ entry) |}.
End HistoryObject.

Module SourceProcessorInfo.
Record t : Type := {
  m_sourceNodeID : Z;
  m_sourceSubNodeIndex : Z;
  m_sourceType : string;
  m_sourceName : string
}.

(** [SourceProcessorInfo::SourceProcessorInfo(source, subproc)] *)
Definition ctor (source : GenericProcessor.t) (subproc : Z) : t :=
  {| m_sourceNodeID := CTypes.wrap 16 (GenericProcessor.nodeId source);
     m_sourceSubNodeIndex := CTypes.wrap 16 subproc;
     m_sourceType := GenericProcessor.getName source;
     m_sourceName := GenericProcessor.getName source |}.

Definition getSourceNodeID (o : t) : Z := m_sourceNodeID o.
Definition getSubProcessorIdx (o : t) : Z := m_sourceSubNodeIndex o.
Definition getSourceType (o : t) : string := m_sourceType o.
Definition getSourceName (o : t) : string := m_sourceName o.
End SourceProcessorInfo.

Module NamedInfoObject.
Record t : Type := {
  m_name : string;
  m_descriptor : string;
  m_description : string
}.

Definition setName (o : t) (name : string) : t :=
  {| m_name := name; m_descriptor := m_descriptor o;
     m_description := m_description o |}.
Definition getName (o : t) : string := m_name o.
Definition setDescriptor (o : t) (descriptor : string) : t :=
  {| m_name := m_name o; m_descriptor := descriptor;
     m_description := m_description o |}.
Definition getDescriptor (o : t) : string := m_descriptor o.
Definition setDescription (o : t) (description : string) : t :=
  {| m_name := m_name o; m_descriptor := m_descriptor o;
     m_description := description |}.
Definition getDescription (o : t) : string := m_description o.
End NamedInfoObject.

Module InfoObjectCommon.
(** Modelled from the spec: the class declarations of InfoObjects.h are
    not among the sources.  The base classes are the ones the constructor
    initialises ([NodeInfoBase], [SourceProcessorInfo]) and the named
    attributes the design document composes into every channel; the data
    members are the ones the member functions read and write. *)
Record t : Type := {
  node : NodeInfoBase.t;
  source : SourceProcessorInfo.t;
  named : NamedInfoObject.t;
  m_sourceIndex : Z;
  m_sourceTypeIndex : Z;
  m_sampleRate : CTypes.float
}.

(** [InfoObjectCommon::InfoObjectCommon(idx, typeidx, source, subproc)].
    [init] is the object as the in-class member initialisers of the header
    leave it: the constructor overwrites the members of its initialiser
    list and keeps the others. *)
Definition ctor (init : t) (idx typeidx : Z) (src : GenericProcessor.t)
  (subproc : Z) : t :=
  {| node := NodeInfoBase.ctor (GenericProcessor.getNodeId src);
     source := SourceProcessorInfo.ctor src subproc;
     named := named init;
     m_sourceIndex := CTypes.wrap 16 idx;
     m_sourceTypeIndex := CTypes.wrap 16 typeidx;
     m_sampleRate := m_sampleRate init |}.

Definition setSampleRate (o : t) (sampleRate : CTypes.float) : t :=
  {| node := node o; source := source o; named := named o;
     m_sourceIndex := m_sourceIndex o;
     m_sourceTypeIndex := m_sourceTypeIndex o;
     m_sampleRate := sampleRate |}.
Definition getSampleRate (o : t) : CTypes.float := m_sampleRate o.
Definition getSourceIndex (o : t) : Z := m_sourceIndex o.
Definition getSourceTypeIndex (o : t) : Z := m_sourceTypeIndex o.

Definition getCurrentNodeID (o : t) : Z := NodeInfoBase.getCurrentNodeID (node o).
Definition getSourceNodeID (o : t) : Z := SourceProcessorInfo.getSourceNodeID (source o).
Definition getSubProcessorIdx (o : t) : Z := SourceProcessorInfo.getSubProcessorIdx (source o).
End InfoObjectCommon.

Module DataChannel.

(** Modelled from the spec: the enumeration [DataChannel::DataChannelTypes]
    (InfoObjects.h).  The design document names headstage, auxiliary and
    ADC channels; no member function inspects the value. *)
Inductive DataChannelTypes : Type :=
| HEADSTAGE_CHANNEL
| AUX_CHANNEL
| ADC_CHANNEL.

Section WithMetaData.
(** [MetaDataInfoObject] is declared in a header of its own; what it
    stores is left abstract. *)
Variable MetaDataInfoObject : Type.

Record t : Type := {
  common : InfoObjectCommon.t;
  metadata : MetaDataInfoObject;
  history : HistoryObject.t;
  m_type : DataChannelTypes;
  m_bitVolts : CTypes.float;
  m_isEnabled : bool;
  m_isMonitored : bool;
  m_isRecording : bool
}.

(** [DataChannel::DataChannel(type, idx, typeidx, source, subproc)];
    [init] as in [InfoObjectCommon.ctor]. *)
Definition ctor (init : t) (type : DataChannelTypes) (idx typeidx : Z)
  (src : GenericProcessor.t) (subproc : Z) : t :=
  {| common := InfoObjectCommon.ctor (common init) idx typeidx src subproc;
     metadata := metadata init;
     history := history init;
     m_type := type;
     m_bitVolts := m_bitVolts init;
     m_isEnabled := m_isEnabled init;
     m_isMonitored := m_isMonitored init;
     m_isRecording := m_isRecording init |}.

(** [DataChannel::DataChannel(const DataChannel& ch)]: the three base
    sub-objects are copied by their default copy constructors. *)
Definition copy (ch : t) : t :=
  {| common := common ch;
     metadata := metadata ch;
     history := history ch;
     m_type := m_type ch;
     m_bitVolts := m_bitVolts ch;
     m_isEnabled := true;
     m_isMonitored := false;
     m_isRecording := false |}.

Definition setBitVolts (ch : t) (bitVolts : CTypes.float) : t :=
  {| common := common ch; metadata := metadata ch; history := history ch;
     m_type := m_type ch; m_bitVolts := bitVolts;
     m_isEnabled := m_isEnabled ch; m_isMonitored := m_isMonitored ch;
     m_isRecording := m_isRecording ch |}.
Definition getBitVolts (ch : t) : CTypes.float := m_bitVolts ch.
Definition getChannelType (ch : t) : DataChannelTypes := m_type ch.
Definition isEnabled (ch : t) : bool := m_isEnabled ch.
Definition setEnable (ch : t) (e : bool) : t :=
  {| common := common ch; metadata := metadata ch; history := history ch;
     m_type := m_type ch; m_bitVolts := m_bitVolts ch;
     m_isEnabled := e; m_isMonitored := m_isMonitored ch;
     m_isRecording := m_isRecording ch |}.
Definition isMonitored (ch : t) : bool := m_isMonitored ch.
Definition setMonitored (ch : t) (e : bool) : t :=
  {| common := common ch; metadata := metadata ch; history := history ch;
     m_type := m_type ch; m_bitVolts := m_bitVolts ch;
     m_isEnabled := m_isEnabled ch; m_isMonitored := e;
     m_isRecording := m_isRecording ch |}.
Definition setRecordState (ch : t) (r : bool) : t :=
  {| common := common ch; metadata := metadata ch; history := history ch;
     m_type := m_type ch; m_bitVolts := m_bitVolts ch;
     m_isEnabled := m_isEnabled ch; m_isMonitored := m_isMonitored ch;
     m_isRecording := r |}.
Definition getRecordState (ch : t) : bool := m_isRecording ch.
Definition getSampleRate (ch : t) : CTypes.float :=
  InfoObjectCommon.getSampleRate (common ch).

(** [DataChannel::reset] *)
Definition reset (ch : t) : t :=
  {| common := InfoObjectCommon.setSampleRate (common ch) (CTypes.float_of_Z 44100);
     metadata := metadata ch;
     history := history ch;
     m_type := m_type ch;
     m_bitVolts := CTypes.float_of_Z 1;
     m_isEnabled := true;
     m_isMonitored := false;
     m_isRecording := false |}.

End WithMetaData.

Arguments common {MetaDataInfoObject} _.
Arguments metadata {MetaDataInfoObject} _.
Arguments history {MetaDataInfoObject} _.
Arguments m_type {MetaDataInfoObject} _.
Arguments m_bitVolts {MetaDataInfoObject} _.
Arguments m_isEnabled {MetaDataInfoObject} _.
Arguments m_isMonitored {MetaDataInfoObject} _.
Arguments m_isRecording {MetaDataInfoObject} _.
Arguments ctor {MetaDataInfoObject} _ _ _ _ _ _.
Arguments copy {MetaDataInfoObject} _.
Arguments setBitVolts {MetaDataInfoObject} _ _.
Arguments getBitVolts {MetaDataInfoObject} _.
Arguments getChannelType {MetaDataInfoObject} _.
Arguments isEnabled {MetaDataInfoObject} _.
Arguments setEnable {MetaDataInfoObject} _ _.
Arguments isMonitored {MetaDataInfoObject} _.
Arguments setMonitored {MetaDataInfoObject} _ _.
Arguments setRecordState {MetaDataInfoObject} _ _.
Arguments getRecordState {MetaDataInfoObject} _.
Arguments getSampleRate {MetaDataInfoObject} _.
Arguments reset {MetaDataInfoObject} _.

End DataChannel.

Module EventChannel.

(** Modelled from the spec: the enumeration [EventChannel::EventChannelTypes]
    (InfoObjects.h): TTL, text, and the eight integer array kinds
    (design document, section 3). *)
Inductive EventChannelTypes : Type :=
| TTL
| TEXT
| INT8_ARRAY
| UINT8_ARRAY
| INT16_ARRAY
| UINT16_ARRAY
| INT32_ARRAY
| UINT32_ARRAY
| INT64_ARRAY
| UINT64_ARRAY.

Definition EventChannelTypes_eqb (a b : EventChannelTypes) : bool :=
  match a, b with
  | TTL, TTL | TEXT, TEXT
  | INT8_ARRAY, INT8_ARRAY | UINT8_ARRAY, UINT8_ARRAY
  | INT16_ARRAY, INT16_ARRAY | UINT16_ARRAY, UINT16_ARRAY
  | INT32_ARRAY, INT32_ARRAY | UINT32_ARRAY, UINT32_ARRAY
  | INT64_ARRAY, INT64_ARRAY | UINT64_ARRAY, UINT64_ARRAY => true
  | _, _ => false
  end.

Record t : Type := {
  common : InfoObjectCommon.t;
  m_type : EventChannelTypes;
  m_numChannels : Z;
  m_length : Z;
  m_dataSize : Z;
  m_shouldBeRecorded : bool
}.

(** Assignments to single data members. *)
Definition set_numChannels (ch : t) (v : Z) : t :=
  {| common := common ch; m_type := m_type ch; m_numChannels := v;
     m_length := m_length ch; m_dataSize := m_dataSize ch;
     m_shouldBeRecorded := m_shouldBeRecorded ch |}.
Definition set_length (ch : t) (v : Z) : t :=
  {| common := common ch; m_type := m_type ch;
     m_numChannels := m_numChannels ch;
     m_length := v; m_dataSize := m_dataSize ch;
     m_shouldBeRecorded := m_shouldBeRecorded ch |}.
Definition set_dataSize (ch : t) (v : Z) : t :=
  {| common := common ch; m_type := m_type ch;
     m_numChannels := m_numChannels ch;
     m_length := m_length ch; m_dataSize := v;
     m_shouldBeRecorded := m_shouldBeRecorded ch |}.

(** [EventChannel::EventChannel(type, idx, typeidx, source, subproc)];
    [init] as in [InfoObjectCommon.ctor]. *)
Definition ctor (init : t) (type : EventChannelTypes) (idx typeidx : Z)
  (src : GenericProcessor.t) (subproc : Z) : t :=
  {| common := InfoObjectCommon.ctor (common init) idx typeidx src subproc;
     m_type := type;
     m_numChannels := m_numChannels init;
     m_length := m_length init;
     m_dataSize := m_dataSize init;
     m_shouldBeRecorded := m_shouldBeRecorded init |}.

Definition getChannelType (ch : t) : EventChannelTypes := m_type ch.
Definition getNumChannels (ch : t) : Z := m_numChannels ch.
Definition getLength (ch : t) : Z := m_length ch.
Definition getDataSize (ch : t) : Z := m_dataSize ch.
Definition setShouldBeRecorded (ch : t) (status : bool) : t :=
  {| common := common ch; m_type := m_type ch;
     m_numChannels := m_numChannels ch;
     m_length := m_length ch; m_dataSize := m_dataSize ch;
     m_shouldBeRecorded := status |}.
Definition getShouldBeRecorded (ch : t) : bool := m_shouldBeRecorded ch.

(** [EventChannel::getTypeByteSize]: [sizeof] of the element type, and
    [sizeof(char)] in the [default] branch. *)
Definition getTypeByteSize (type : EventChannelTypes) : Z :=
  match type with
  | INT8_ARRAY => 1
  | UINT8_ARRAY => 1
  | INT16_ARRAY => 2
  | UINT16_ARRAY => 2
  | INT32_ARRAY => 4
  | UINT32_ARRAY => 4
  | INT64_ARRAY => 8
  | UINT64_ARRAY => 8
  | _ => 1
  end.

Section WithSizeT.
(** Width of [size_t], the type of [m_dataSize]; at least that of
    [unsigned int] on every target. *)
Variable size_t_bits : Z.

(** [EventChannel::setNumChannels].  [numChannels + 7] is computed in
    [unsigned int]; the assignment to [m_dataSize] converts to [size_t]. *)
Definition setNumChannels (ch : t) (numChannels : Z) : t :=
  let ch := set_numChannels ch numChannels in
  if EventChannelTypes_eqb (m_type ch) TTL then
    let ch := set_length ch
                (CTypes.wrap CTypes.unsigned_int_bits (numChannels + 7) / 8) in
    set_dataSize ch (CTypes.wrap size_t_bits (m_length ch))
  else ch.

(** [EventChannel::setLength].  The product is computed in [size_t], the
    type of [getTypeByteSize]'s result. *)
Definition setLength (ch : t) (length : Z) : t :=
  if EventChannelTypes_eqb (m_type ch) TTL then ch
  else
    let ch := set_length ch length in
    let ch := set_dataSize ch
                (CTypes.wrap size_t_bits (length * getTypeByteSize (m_type ch))) in
    if EventChannelTypes_eqb (m_type ch) TEXT
    then set_dataSize ch (CTypes.wrap size_t_bits (m_dataSize ch + 1))
    else ch.

End WithSizeT.

End EventChannel.

Module SpikeChannel.

(** Modelled from the spec: the enumeration [SpikeChannel::ElectrodeTypes]
    (InfoObjects.h): single electrode, stereotrode, tetrode (design
    document, section 3). *)
Inductive ElectrodeTypes : Type :=
| SINGLE
| STEREOTRODE
| TETRODE.

(** [struct sourceChannelInfo] *)
Record sourceChannelInfo : Type := {
  processorID : Z;
  subProcessorID : Z;
  channelIDX : Z
}.

Record t : Type := {
  common : InfoObjectCommon.t;
  m_type : ElectrodeTypes;
  m_sourceInfo : list sourceChannelInfo;
  m_gain : CTypes.float;
  m_numPreSamples : Z;
  m_numPostSamples : Z
}.

(** [SpikeChannel::getNumChannels(ElectrodeTypes)]; the [default] branch
    of the [switch] has no enumerator left to serve. *)
Definition getNumChannels (type : ElectrodeTypes) : Z :=
  match type with
  | SINGLE => 1
  | STEREOTRODE => 2
  | TETRODE => 4
  end.

Section WithMetaData.
Variable MetaDataInfoObject : Type.

(** The body of the constructor's loop: the identity triple of one source
    channel. *)
Definition info_of (chan : DataChannel.t MetaDataInfoObject) : sourceChannelInfo :=
  {| processorID := InfoObjectCommon.getSourceNodeID (DataChannel.common chan);
     subProcessorID := InfoObjectCommon.getSubProcessorIdx (DataChannel.common chan);
     channelIDX := InfoObjectCommon.getSourceIndex (DataChannel.common chan) |}.

(** [SpikeChannel::SpikeChannel(type, idx, typeidx, source, sourceChannels,
    subproc)]; [init] as in [InfoObjectCommon.ctor].  The assertion comes
    first; the loop, which runs whether it held or not, adds one entry per
    source channel. *)
Definition ctor (init : t) (type : ElectrodeTypes) (idx typeidx : Z)
  (src : GenericProcessor.t)
  (sourceChannels : list (DataChannel.t MetaDataInfoObject))
  (subproc : Z) : asserted t :=
  let n := Z.of_nat (List.length sourceChannels) in
  jassert (n =? getNumChannels type)
    (Constructed
       {| common := InfoObjectCommon.ctor (common init) idx typeidx src subproc;
          m_type := type;
          m_sourceInfo :=
            fold_left (fun added chan => added ++ [info_of chan])
                      sourceChannels (m_sourceInfo init);
          m_gain := m_gain init;
          m_numPreSamples := m_numPreSamples init;
          m_numPostSamples := m_numPostSamples init |}).

End WithMetaData.
Arguments info_of {MetaDataInfoObject} _.
Arguments ctor {MetaDataInfoObject} _ _ _ _ _ _ _.

Definition getChannelType (ch : t) : ElectrodeTypes := m_type ch.
Definition getSourceChannelInfo (ch : t) : list sourceChannelInfo := m_sourceInfo ch.
Definition setGain (ch : t) (gain : CTypes.float) : t :=
  {| common := common ch; m_type := m_type ch; m_sourceInfo := m_sourceInfo ch;
     m_gain := gain; m_numPreSamples := m_numPreSamples ch;
     m_numPostSamples := m_numPostSamples ch |}.
Definition getGain (ch : t) : CTypes.float := m_gain ch.
Definition setNumSamples (ch : t) (preSamples postSamples : Z) : t :=
  {| common := common ch; m_type := m_type ch; m_sourceInfo := m_sourceInfo ch;
     m_gain := m_gain ch; m_numPreSamples := preSamples;
     m_numPostSamples := postSamples |}.
Definition getPrePeakSamples (ch : t) : Z := m_numPreSamples ch.
Definition getPostPeakSamples (ch : t) : Z := m_numPostSamples ch.
Definition getTotalSamples (ch : t) : Z :=
  CTypes.wrap CTypes.unsigned_int_bits (m_numPostSamples ch + m_numPreSamples ch).
Definition getNumChannels_of (ch : t) : Z := getNumChannels (m_type ch).

End SpikeChannel.

Module ConfigurationObject.
(** Modelled from the spec: the class declaration (InfoObjects.h) is not
    among the sources; the base classes are the one the constructor
    initialises and the one whose [setDescriptor] it calls. *)
Record t : Type := {
  source : SourceProcessorInfo.t;
  named : NamedInfoObject.t;
  m_shouldBeRecorded : bool
}.

(** [ConfigurationObject::ConfigurationObject(descriptor, source, subproc)];
    [init] as in [InfoObjectCommon.ctor]. *)
Definition ctor (init : t) (descriptor : string) (src : GenericProcessor.t)
  (subproc : Z) : t :=
  {| source := SourceProcessorInfo.ctor src subproc;
     named := NamedInfoObject.setDescriptor (named init) descriptor;
     m_shouldBeRecorded := m_shouldBeRecorded init |}.

Definition setShouldBeRecorded (o : t) (status : bool) : t :=
  {| source := source o; named := named o; m_shouldBeRecorded := status |}.
Definition getShouldBeRecorded (o : t) : bool := m_shouldBeRecorded o.
End ConfigurationObject.

(* ================================================================== *)
(** * Events (Events.h) and their codec *)
(* ================================================================== *)

(** Modelled from the spec: Events.cpp, the implementation of the member
    functions that Events.h declares ([serialize], [serializeHeader],
    [deserializeFromMessage] of every event class), is not among the
    sources.  The classes and their data members follow Events.h; the
    packet layout follows section 4.3 of the design document and the
    payloads and the checks follow section 4.4.  Where the design document
    leaves a choice open, the model fixes it as follows.
    - Byte order: little endian throughout.
    - Sub-type byte: the event channel types numbered in the order the
      design document lists them; the electrode types by the values it
      gives them (1, 2, 4).
    - A spike event has no virtual channel ([SpikeEvent] derives from
      [EventBase] directly); its packet carries 0 in that field.
    - Meta data is an external collaborator of the design document and is
      not carried by the modelled events.
    - A message is the list of the bytes written; a decoder accepts a
      message that is longer than the packet it holds. *)
Module Codec.

Inductive CodecFailure : Type :=
| CodecError
| SchemaMismatch.

Inductive result (A : Type) : Type :=
| Ok (a : A)
| Failed (why : CodecFailure).
Arguments Ok {A} a.
Arguments Failed {A} why.

Definition bind {A B : Type} (r : result A) (k : A -> result B) : result B :=
  match r with
  | Ok a => k a
  | Failed why => Failed why
  end.

(** [require c why]: go on when [c] holds, fail with [why] otherwise. *)
Definition require (c : bool) (why : CodecFailure) : result unit :=
  if c then Ok tt else Failed why.

(** Readers consume a prefix of the message and return what is left. *)
Definition reader (A : Type) : Type := list byte -> result (A * list byte).

Definition read_bytes (n : nat) : reader (list byte) :=
  fun msg =>
    if (List.length msg <? n)%nat then Failed CodecError
    else Ok (firstn n msg, skipn n msg).

Definition read_le (n : nat) : reader Z :=
  fun msg => bind (read_bytes n msg) (fun '(bs, rest) => Ok (le_combine bs, rest)).

End Codec.

Declare Scope codec_scope.
Notation "x <- c ;; k" := (Codec.bind c (fun x => k))
  (at level 61, c at next level, right associativity) : codec_scope.
Notation "' p <- c ;; k" := (Codec.bind c (fun p => k))
  (at level 61, p pattern, c at next level, right associativity) : codec_scope.
Local Open Scope codec_scope.

(** [enum EventType] (with the spelling of Events.h) and its values. *)
Inductive EventType : Type :=
| SYSYEM_EVENT
| PROCESSOR_EVENT
| SPIKE_EVENT.

Definition EventType_value (t : EventType) : Z :=
  match t with
  | SYSYEM_EVENT => 0
  | PROCESSOR_EVENT => 1
  | SPIKE_EVENT => 2
  end.

Definition EventChannelTypes_value (t : EventChannel.EventChannelTypes) : Z :=
  match t with
  | EventChannel.TTL => 0
  | EventChannel.TEXT => 1
  | EventChannel.INT8_ARRAY => 2
  | EventChannel.UINT8_ARRAY => 3
  | EventChannel.INT16_ARRAY => 4
  | EventChannel.UINT16_ARRAY => 5
  | EventChannel.INT32_ARRAY => 6
  | EventChannel.UINT32_ARRAY => 7
  | EventChannel.INT64_ARRAY => 8
  | EventChannel.UINT64_ARRAY => 9
  end.

Definition ElectrodeTypes_value (t : SpikeChannel.ElectrodeTypes) : Z :=
  match t with
  | SpikeChannel.SINGLE => 1
  | SpikeChannel.STEREOTRODE => 2
  | SpikeChannel.TETRODE => 4
  end.

(** The fixed header of a packet (section 4.3). *)
Module Header.
Record t : Type := {
  eventType : Z;
  subType : Z;
  sourceProcessorID : Z;
  sourceSubStream : Z;
  sourceEventIndex : Z;
  virtualChannel : Z;
  timestamp : Z
}.

Definition size : Z := 18.

(** The fields of a header fit their places in the packet. *)
Definition fits (h : t) : Prop :=
  CTypes.in_range 8 (eventType h) /\ CTypes.in_range 8 (subType h)
  /\ CTypes.is_uint16 (sourceProcessorID h) /\ CTypes.is_uint16 (sourceSubStream h)
  /\ CTypes.is_uint16 (sourceEventIndex h) /\ CTypes.is_uint16 (virtualChannel h)
  /\ CTypes.is_uint64 (timestamp h).

Definition write (h : t) : list byte :=
  le_split 1 (eventType h) ++ le_split 1 (subType h)
  ++ le_split 2 (sourceProcessorID h) ++ le_split 2 (sourceSubStream h)
  ++ le_split 2 (sourceEventIndex h) ++ le_split 2 (virtualChannel h)
  ++ le_split 8 (timestamp h).

Definition read : Codec.reader t :=
  fun msg =>
    '(et, msg) <- Codec.read_le 1 msg ;;
    '(st, msg) <- Codec.read_le 1 msg ;;
    '(pid, msg) <- Codec.read_le 2 msg ;;
    '(sub, msg) <- Codec.read_le 2 msg ;;
    '(idx, msg) <- Codec.read_le 2 msg ;;
    '(vc, msg) <- Codec.read_le 2 msg ;;
    '(ts, msg) <- Codec.read_le 8 msg ;;
    Codec.Ok ({| eventType := et; subType := st; sourceProcessorID := pid;
                 sourceSubStream := sub; sourceEventIndex := idx;
                 virtualChannel := vc; timestamp := ts |}, msg).
End Header.

Module EventBase.
Record t : Type := {
  m_baseType : EventType;
  m_timestamp : Z
}.
Definition getBaseType (e : t) : EventType := m_baseType e.
End EventBase.

Module Event.
Record t : Type := {
  base : EventBase.t;
  m_channel : Z;
  m_channelInfo : EventChannel.t;
  m_eventType : EventChannel.EventChannelTypes
}.

Definition getEventType (e : t) : EventChannel.EventChannelTypes := m_eventType e.
Definition getChannelInfo (e : t) : EventChannel.t := m_channelInfo e.
Definition getChannel (e : t) : Z := m_channel e.

(** [Event::Event(channelInfo, timestamp, channel)] *)
Definition ctor (channelInfo : EventChannel.t) (timestamp channel : Z) : t :=
  {| base := {| EventBase.m_baseType := PROCESSOR_EVENT;
                EventBase.m_timestamp := timestamp |};
     m_channel := channel;
     m_channelInfo := channelInfo;
     m_eventType := EventChannel.getChannelType channelInfo |}.

(** The header of the packet of an event: its base type and the type
    being written, the identity of its descriptor, its channel and its
    time stamp. *)
Definition header_of (e : t) (type : EventChannel.EventChannelTypes) : Header.t :=
  let ci := m_channelInfo e in
  {| Header.eventType := EventType_value (EventBase.m_baseType (base e));
     Header.subType := EventChannelTypes_value type;
     Header.sourceProcessorID := InfoObjectCommon.getSourceNodeID (EventChannel.common ci);
     Header.sourceSubStream := InfoObjectCommon.getSubProcessorIdx (EventChannel.common ci);
     Header.sourceEventIndex := InfoObjectCommon.getSourceIndex (EventChannel.common ci);
     Header.virtualChannel := m_channel e;
     Header.timestamp := EventBase.m_timestamp (base e) |}.

(** [Event::serializeHeader]: fails when the event is not of the type
    being written, when its type is not its descriptor's, or when the
    buffer cannot hold header and payload. *)
Definition serializeHeader (e : t) (type : EventChannel.EventChannelTypes)
  (dstSize : Z) : Codec.result (list byte) :=
  let ci := m_channelInfo e in
  _ <- Codec.require
         (EventChannel.EventChannelTypes_eqb (m_eventType e) type
          && EventChannel.EventChannelTypes_eqb (EventChannel.getChannelType ci) type)
         Codec.CodecError ;;
  _ <- Codec.require (Header.size + EventChannel.getDataSize ci <=? dstSize)
         Codec.CodecError ;;
  Codec.Ok (Header.write (header_of e type)).

(** The part of decoding that the three [Event] variants share: read the
    header, check it against the descriptor, and return the event fields
    and the [dataSize] bytes of the payload. *)
Definition deserializeHeader (msg : list byte) (channelInfo : EventChannel.t)
  (type : EventChannel.EventChannelTypes) : Codec.result (t * list byte) :=
  '(h, msg) <- Header.read msg ;;
  _ <- Codec.require (Header.eventType h =? EventType_value PROCESSOR_EVENT)
         Codec.SchemaMismatch ;;
  _ <- Codec.require
         ((Header.subType h =? EventChannelTypes_value type)
          && EventChannel.EventChannelTypes_eqb (EventChannel.getChannelType channelInfo) type)
         Codec.SchemaMismatch ;;
  _ <- Codec.require
         ((Header.sourceProcessorID h =? InfoObjectCommon.getSourceNodeID (EventChannel.common channelInfo))
          && (Header.sourceSubStream h =? InfoObjectCommon.getSubProcessorIdx (EventChannel.common channelInfo))
          && (Header.sourceEventIndex h =? InfoObjectCommon.getSourceIndex (EventChannel.common channelInfo))
          && (Header.virtualChannel h <? EventChannel.getNumChannels channelInfo))
         Codec.SchemaMismatch ;;
  '(payload, _) <- Codec.read_bytes (Z.to_nat (EventChannel.getDataSize channelInfo)) msg ;;
  Codec.Ok (ctor channelInfo (Header.timestamp h) (Header.virtualChannel h), payload).
End Event.

Module TTLEvent.
Record t : Type := {
  event : Event.t;
  m_data : list byte
}.

(** [TTLEvent::serialize]: header, then the bit-packed word. *)
Definition serialize (e : t) (dstSize : Z) : Codec.result (list byte) :=
  hdr <- Event.serializeHeader (event e) EventChannel.TTL dstSize ;;
  _ <- Codec.require
         (Z.of_nat (List.length (m_data e))
          =? EventChannel.getDataSize (Event.m_channelInfo (event e)))
         Codec.CodecError ;;
  Codec.Ok (hdr ++ m_data e).

(** [TTLEvent::deserializeFromMessage] *)
Definition deserializeFromMessage (msg : list byte) (channelInfo : EventChannel.t)
  : Codec.result t :=
  '(ev, payload) <- Event.deserializeHeader msg channelInfo EventChannel.TTL ;;
  Codec.Ok {| event := ev; m_data := payload |}.

(** [TTLEvent::getState]: the bit of the word at the event's channel. *)
Definition getState (e : t) : bool :=
  Z.testbit (le_combine (m_data e)) (Event.m_channel (event e)).
End TTLEvent.

Module TextEvent.
Record t : Type := {
  event : Event.t;
  m_text : string
}.

Definition getText (e : t) : string := m_text e.

(** The UTF-8 bytes of a [String]. *)
Definition utf8 (s : string) : list byte := list_byte_of_string s.

(** The bytes before the first null byte. *)
Fixpoint until_null (bs : list byte) : list byte :=
  match bs with
  | [] => []
  | b :: bs' => if Byte.eqb b Byte.x00 then [] else b :: until_null bs'
  end.

(** [TextEvent::serialize]: header, then the text and null bytes up to the
    descriptor's [dataSize], of which one at least. *)
Definition serialize (e : t) (dstSize : Z) : Codec.result (list byte) :=
  let ci := Event.m_channelInfo (event e) in
  let text := utf8 (m_text e) in
  hdr <- Event.serializeHeader (event e) EventChannel.TEXT dstSize ;;
  _ <- Codec.require
         ((Z.of_nat (List.length text) <=? EventChannel.getLength ci)
          && (Z.of_nat (List.length text) <? EventChannel.getDataSize ci))
         Codec.CodecError ;;
  Codec.Ok (hdr ++ text
            ++ repeat Byte.x00
                 (Z.to_nat (EventChannel.getDataSize ci) - List.length text)).

(** [TextEvent::deserializeFromMessage]: the text stops at the terminator
    or at the declared length, whichever comes first. *)
Definition deserializeFromMessage (msg : list byte) (channelInfo : EventChannel.t)
  : Codec.result t :=
  '(ev, payload) <- Event.deserializeHeader msg channelInfo EventChannel.TEXT ;;
  Codec.Ok {| event := ev;
              m_text := string_of_list_byte
                          (until_null
                             (firstn (Z.to_nat (EventChannel.getLength channelInfo))
                                     payload)) |}.
End TextEvent.

Module BinaryEvent.
Record t : Type := {
  event : Event.t;
  m_data : list byte
}.

(** The channel types a binary event can be created for. *)
Definition is_array (type : EventChannel.EventChannelTypes) : bool :=
  match type with
  | EventChannel.TTL | EventChannel.TEXT => false
  | _ => true
  end.

(** [BinaryEvent::serialize]: header, then the dense array. *)
Definition serialize (e : t) (dstSize : Z) : Codec.result (list byte) :=
  let type := Event.m_eventType (event e) in
  _ <- Codec.require (is_array type) Codec.CodecError ;;
  hdr <- Event.serializeHeader (event e) type dstSize ;;
  _ <- Codec.require
         (Z.of_nat (List.length (m_data e))
          =? EventChannel.getDataSize (Event.m_channelInfo (event e)))
         Codec.CodecError ;;
  Codec.Ok (hdr ++ m_data e).

(** [BinaryEvent::deserializeFromMessage] *)
Definition deserializeFromMessage (msg : list byte) (channelInfo : EventChannel.t)
  : Codec.result t :=
  let type := EventChannel.getChannelType channelInfo in
  _ <- Codec.require (is_array type) Codec.SchemaMismatch ;;
  '(ev, payload) <- Event.deserializeHeader msg channelInfo type ;;
  Codec.Ok {| event := ev; m_data := payload |}.
End BinaryEvent.

Module SpikeEvent.
Record t : Type := {
  base : EventBase.t;
  m_channelInfo : SpikeChannel.t;
  m_threshold : CTypes.float;
  m_data : list CTypes.float
}.

Definition getThreshold (e : t) : CTypes.float := m_threshold e.

(** Number of samples of a waveform: every channel of the electrode
    contributes [preSamples + postSamples] of them. *)
Definition numSamples (channelInfo : SpikeChannel.t) : Z :=
  SpikeChannel.getNumChannels_of channelInfo * SpikeChannel.getTotalSamples channelInfo.

Definition write_float (x : CTypes.float) : list byte :=
  le_split 4 (CTypes.bits_of_float x).

Definition read_float : Codec.reader CTypes.float :=
  fun msg =>
    '(w, msg) <- Codec.read_le 4 msg ;;
    Codec.Ok (CTypes.float_of_bits w, msg).

Fixpoint read_floats (n : nat) : Codec.reader (list CTypes.float) :=
  fun msg =>
    match n with
    | O => Codec.Ok ([], msg)
    | S n' =>
        '(x, msg) <- read_float msg ;;
        '(xs, msg) <- read_floats n' msg ;;
        Codec.Ok (x :: xs, msg)
    end.

(** The header of the packet of a spike event. *)
Definition header_of (e : t) : Header.t :=
  let ci := m_channelInfo e in
  {| Header.eventType := EventType_value (EventBase.m_baseType (base e));
     Header.subType := ElectrodeTypes_value (SpikeChannel.getChannelType ci);
     Header.sourceProcessorID := InfoObjectCommon.getSourceNodeID (SpikeChannel.common ci);
     Header.sourceSubStream := InfoObjectCommon.getSubProcessorIdx (SpikeChannel.common ci);
     Header.sourceEventIndex := InfoObjectCommon.getSourceIndex (SpikeChannel.common ci);
     Header.virtualChannel := 0;
     Header.timestamp := EventBase.m_timestamp (base e) |}.

(** [SpikeEvent::serialize]: header, threshold, waveform. *)
Definition serialize (e : t) (dstSize : Z) : Codec.result (list byte) :=
  let ci := m_channelInfo e in
  _ <- Codec.require (Header.size + 4 + 4 * numSamples ci <=? dstSize)
         Codec.CodecError ;;
  _ <- Codec.require (Z.of_nat (List.length (m_data e)) =? numSamples ci)
         Codec.CodecError ;;
  Codec.Ok (Header.write (header_of e)
            ++ write_float (m_threshold e)
            ++ flat_map write_float (m_data e)).

(** [SpikeEvent::deserializeFromMessage] *)
Definition deserializeFromMessage (msg : list byte) (channelInfo : SpikeChannel.t)
  : Codec.result t :=
  '(h, msg) <- Header.read msg ;;
  _ <- Codec.require (Header.eventType h =? EventType_value SPIKE_EVENT)
         Codec.SchemaMismatch ;;
  _ <- Codec.require
         (Header.subType h =? ElectrodeTypes_value (SpikeChannel.getChannelType channelInfo))
         Codec.SchemaMismatch ;;
  _ <- Codec.require
         ((Header.sourceProcessorID h =? InfoObjectCommon.getSourceNodeID (SpikeChannel.common channelInfo))
          && (Header.sourceSubStream h =? InfoObjectCommon.getSubProcessorIdx (SpikeChannel.common channelInfo))
          && (Header.sourceEventIndex h =? InfoObjectCommon.getSourceIndex (SpikeChannel.common channelInfo))
          && (Header.virtualChannel h =? 0))
         Codec.SchemaMismatch ;;
  '(threshold, msg) <- read_float msg ;;
  '(data, _) <- read_floats (Z.to_nat (numSamples channelInfo)) msg ;;
  Codec.Ok {| base := {| EventBase.m_baseType := SPIKE_EVENT;
                         EventBase.m_timestamp := Header.timestamp h |};
              m_channelInfo := channelInfo;
              m_threshold := threshold;
              m_data := data |}.
End SpikeEvent.

(** The event hierarchy as a sum of its four concrete classes, and the
    two kinds of descriptor an event is created and decoded against. *)
Inductive event : Type :=
| TTL_event (e : TTLEvent.t)
| Text_event (e : TextEvent.t)
| Binary_event (e : BinaryEvent.t)
| Spike_event (e : SpikeEvent.t).

Inductive descriptor : Type :=
| Event_channel (channelInfo : EventChannel.t)
| Spike_channel (channelInfo : SpikeChannel.t).

(** [EventBase::serialize], the virtual call. *)
Definition serialize (e : event) (dstSize : Z) : Codec.result (list byte) :=
  match e with
  | TTL_event e => TTLEvent.serialize e dstSize
  | Text_event e => TextEvent.serialize e dstSize
  | Binary_event e => BinaryEvent.serialize e dstSize
  | Spike_event e => SpikeEvent.serialize e dstSize
  end.

(** [Event::deserializeFromMessage]: the sub-type of the header selects
    the decoder. *)
Definition Event_deserializeFromMessage (msg : list byte)
  (channelInfo : EventChannel.t) : Codec.result event :=
  '(h, _) <- Header.read msg ;;
  if Header.subType h =? EventChannelTypes_value EventChannel.TTL then
    e <- TTLEvent.deserializeFromMessage msg channelInfo ;; Codec.Ok (TTL_event e)
  else if Header.subType h =? EventChannelTypes_value EventChannel.TEXT then
    e <- TextEvent.deserializeFromMessage msg channelInfo ;; Codec.Ok (Text_event e)
  else
    e <- BinaryEvent.deserializeFromMessage msg channelInfo ;; Codec.Ok (Binary_event e).

(** [EventBase::deserializeFromMessage]: the event type of the header
    selects the hierarchy; the descriptor has to be of the matching kind. *)
Definition deserializeFromMessage (msg : list byte) (d : descriptor)
  : Codec.result event :=
  '(h, _) <- Header.read msg ;;
  if Header.eventType h =? EventType_value PROCESSOR_EVENT then
    match d with
    | Event_channel channelInfo => Event_deserializeFromMessage msg channelInfo
    | Spike_channel _ => Codec.Failed Codec.SchemaMismatch
    end
  else if Header.eventType h =? EventType_value SPIKE_EVENT then
    match d with
    | Spike_channel channelInfo =>
        e <- SpikeEvent.deserializeFromMessage msg channelInfo ;;
        Codec.Ok (Spike_event e)
    | Event_channel _ => Codec.Failed Codec.SchemaMismatch
    end
  else Codec.Failed Codec.SchemaMismatch.

(** ** Events built against a descriptor *)

(** The identity fields of a descriptor are [uint16] values, as the
    constructors leave them. *)
Definition identified (c : InfoObjectCommon.t) : Prop :=
  CTypes.is_uint16 (InfoObjectCommon.getSourceNodeID c)
  /\ CTypes.is_uint16 (InfoObjectCommon.getSubProcessorIdx c)
  /\ CTypes.is_uint16 (InfoObjectCommon.getSourceIndex c).

(** An [Event] created for [channelInfo]: it refers to it, has its type,
    a [uint64] time stamp and a [uint16] channel within the channel count. *)
Definition Event_built_against (channelInfo : EventChannel.t) (e : Event.t) : Prop :=
  Event.m_channelInfo e = channelInfo
  /\ Event.m_eventType e = EventChannel.getChannelType channelInfo
  /\ EventBase.m_baseType (Event.base e) = PROCESSOR_EVENT
  /\ CTypes.is_uint64 (EventBase.m_timestamp (Event.base e))
  /\ CTypes.is_uint16 (Event.m_channel e)
  /\ Event.m_channel e < EventChannel.getNumChannels channelInfo
  /\ identified (EventChannel.common channelInfo).

(** A text a JUCE [String] can hold has no null character. *)
Definition no_null (s : string) : bool :=
  forallb (fun b => negb (Byte.eqb b Byte.x00)) (TextEvent.utf8 s).

(** [built_against d e]: [e] is an event of one of the four classes
    created for the descriptor [d], whose kind and type match the class;
    its payload has the size the descriptor declares. *)
Definition built_against (d : descriptor) (e : event) : Prop :=
  match d, e with
  | Event_channel ci, TTL_event e =>
      Event_built_against ci (TTLEvent.event e)
      /\ EventChannel.getChannelType ci = EventChannel.TTL
      /\ Z.of_nat (List.length (TTLEvent.m_data e)) = EventChannel.getDataSize ci
  | Event_channel ci, Text_event e =>
      Event_built_against ci (TextEvent.event e)
      /\ EventChannel.getChannelType ci = EventChannel.TEXT
      /\ EventChannel.getDataSize ci = EventChannel.getLength ci + 1
      /\ Z.of_nat (List.length (TextEvent.utf8 (TextEvent.m_text e)))
         <= EventChannel.getLength ci
      /\ no_null (TextEvent.m_text e) = true
  | Event_channel ci, Binary_event e =>
      Event_built_against ci (BinaryEvent.event e)
      /\ BinaryEvent.is_array (EventChannel.getChannelType ci) = true
      /\ Z.of_nat (List.length (BinaryEvent.m_data e)) = EventChannel.getDataSize ci
  | Spike_channel ci, Spike_event e =>
      SpikeEvent.m_channelInfo e = ci
      /\ EventBase.m_baseType (SpikeEvent.base e) = SPIKE_EVENT
      /\ CTypes.is_uint64 (EventBase.m_timestamp (SpikeEvent.base e))
      /\ identified (SpikeChannel.common ci)
      /\ CTypes.is_float (SpikeEvent.m_threshold e)
      /\ Forall CTypes.is_float (SpikeEvent.m_data e)
      /\ Z.of_nat (List.length (SpikeEvent.m_data e)) = SpikeEvent.numSamples ci
  | _, _ => False
  end.

(** Size of the packet of an event for [d]. *)
Definition packetSize (d : descriptor) : Z :=
  match d with
  | Event_channel ci => Header.size + EventChannel.getDataSize ci
  | Spike_channel ci => Header.size + 4 + 4 * SpikeEvent.numSamples ci
  end.

(** Writing an event into a buffer of 64 bytes and reading the packet
    back. *)
Definition there_and_back (d : descriptor) (e : event) : Codec.result event :=
  msg <- serialize e 64 ;; deserializeFromMessage msg d.

(** A round trip through a buffer of [dstSize] bytes: the event is
    written as a packet of the size its descriptor implies, and the packet
    is read back, with the same descriptor, as the event. *)
Definition round_trips (d : descriptor) (e : event) (dstSize : Z) : Prop :=
  exists msg,
    serialize e dstSize = Codec.Ok msg
    /\ Z.of_nat (List.length msg) = packetSize d
    /\ deserializeFromMessage msg d = Codec.Ok e.

(** ** Quantities of the design document *)

(** [ceil(n / 8)]: the least integer that is not below the rational
    [n / 8], the number of bytes that [n] packed bits need. *)
Definition ceil_div8 (n : Z) : Z := Qceiling (Qmake n 8).

(** [elementByteSize(type)] of the design document: the width of the
    elements of the eight integer array kinds, one byte for the others. *)
Definition elementByteSize (type : EventChannel.EventChannelTypes) : Z :=
  match type with
  | EventChannel.TTL | EventChannel.TEXT => 1
  | EventChannel.INT8_ARRAY | EventChannel.UINT8_ARRAY => 1
  | EventChannel.INT16_ARRAY | EventChannel.UINT16_ARRAY => 2
  | EventChannel.INT32_ARRAY | EventChannel.UINT32_ARRAY => 4
  | EventChannel.INT64_ARRAY | EventChannel.UINT64_ARRAY => 8
  end.

(** [channelCountFor(electrodeType)] of the design document. *)
Definition channelCountFor (type : SpikeChannel.ElectrodeTypes) : Z :=
  match type with
  | SpikeChannel.SINGLE => 1
  | SpikeChannel.STEREOTRODE => 2
  | SpikeChannel.TETRODE => 4
  end.

(** ** Sample objects

    Concrete descriptors to run the member functions on: the members hold
    what constructor calls for processor 100 leave in them. *)
Module Samples.

Definition processor : GenericProcessor.t :=
  {| GenericProcessor.nodeId := 100; GenericProcessor.name := "Source"%string |}.

Definition common : InfoObjectCommon.t :=
  InfoObjectCommon.ctor
    {| InfoObjectCommon.node := NodeInfoBase.ctor 0;
       InfoObjectCommon.source :=
         {| SourceProcessorInfo.m_sourceNodeID := 0;
            SourceProcessorInfo.m_sourceSubNodeIndex := 0;
            SourceProcessorInfo.m_sourceType := ""%string;
            SourceProcessorInfo.m_sourceName := ""%string |};
       InfoObjectCommon.named :=
         {| NamedInfoObject.m_name := ""%string;
            NamedInfoObject.m_descriptor := ""%string;
            NamedInfoObject.m_description := ""%string |};
       InfoObjectCommon.m_sourceIndex := 0;
       InfoObjectCommon.m_sourceTypeIndex := 0;
       InfoObjectCommon.m_sampleRate := CTypes.float_of_Z 44100 |}
    3 0 processor 0.

(** An event channel of the given type, before any sizing call. *)
Definition event_channel (type : EventChannel.EventChannelTypes) : EventChannel.t :=
  {| EventChannel.common := common; EventChannel.m_type := type;
     EventChannel.m_numChannels := 1; EventChannel.m_length := 1;
     EventChannel.m_dataSize := 1; EventChannel.m_shouldBeRecorded := true |}.

(** A data channel without meta data. *)
Definition data_channel : DataChannel.t unit :=
  {| DataChannel.common := common; DataChannel.metadata := tt;
     DataChannel.history := {| HistoryObject.m_historicString := "Source"%string |};
     DataChannel.m_type := DataChannel.HEADSTAGE_CHANNEL;
     DataChannel.m_bitVolts := CTypes.float_of_Z 1;
     DataChannel.m_isEnabled := false; DataChannel.m_isMonitored := true;
     DataChannel.m_isRecording := true |}.

(** A spike channel as the in-class initialisers leave it, and one with a
    stereotrode's two channels of one sample before and one after the
    peak. *)
Definition spike_init : SpikeChannel.t :=
  {| SpikeChannel.common := common; SpikeChannel.m_type := SpikeChannel.SINGLE;
     SpikeChannel.m_sourceInfo := [];
     SpikeChannel.m_gain := CTypes.float_of_Z 1;
     SpikeChannel.m_numPreSamples := 0; SpikeChannel.m_numPostSamples := 0 |}.

Definition stereotrode : SpikeChannel.t :=
  {| SpikeChannel.common := common; SpikeChannel.m_type := SpikeChannel.STEREOTRODE;
     SpikeChannel.m_sourceInfo :=
       [SpikeChannel.info_of data_channel; SpikeChannel.info_of data_channel];
     SpikeChannel.m_gain := CTypes.float_of_Z 1;
     SpikeChannel.m_numPreSamples := 1; SpikeChannel.m_numPostSamples := 1 |}.

(** Event channels sized by their setters on a 64-bit target: 16 TTL
    lines, a text of up to 10 bytes, an array of three 16-bit integers. *)
Definition ttl_channel : EventChannel.t :=
  EventChannel.setNumChannels 64 (event_channel EventChannel.TTL) 16.
Definition text_channel : EventChannel.t :=
  EventChannel.setLength 64 (event_channel EventChannel.TEXT) 10.
Definition int16_channel : EventChannel.t :=
  EventChannel.setLength 64 (event_channel EventChannel.INT16_ARRAY) 3.

Definition ttl_event (word : list byte) : event :=
  TTL_event {| TTLEvent.event := Event.ctor ttl_channel 1000 3;
               TTLEvent.m_data := word |}.
Definition text_event (text : string) : event :=
  Text_event {| TextEvent.event := Event.ctor text_channel 1000 0;
                TextEvent.m_text := text |}.
Definition int16_event (data : list byte) : event :=
  Binary_event {| BinaryEvent.event := Event.ctor int16_channel 1000 0;
                  BinaryEvent.m_data := data |}.
Definition spike_event : event :=
  Spike_event
    {| SpikeEvent.base := {| EventBase.m_baseType := SPIKE_EVENT;
                             EventBase.m_timestamp := 2 ^ 64 - 1 |};
       SpikeEvent.m_channelInfo := stereotrode;
       SpikeEvent.m_threshold := CTypes.float_of_Z 50;
       SpikeEvent.m_data :=
         [CTypes.float_of_Z 1; CTypes.float_of_Z (-2);
          S754_zero true; S754_finite false 1 (-149)] |}.

End Samples.

(** ** Sequences of calls

    What a client does to a descriptor after its construction is a
    sequence of calls of its member functions, its own and the ones it
    inherits; a sequence is run from the first call to the last. *)
Module Calls.

(** One [addToHistoricString] per entry. *)
Definition addAllToHistoricString (h : HistoryObject.t) (entries : list string)
  : HistoryObject.t :=
  fold_left HistoryObject.addToHistoricString entries h.

(** The entries from the first non-empty one on. *)
Fixpoint drop_leading_empty (entries : list string) : list string :=
  match entries with
  | [] => []
  | e :: rest =>
      if HistoryObject.isEmpty e then drop_leading_empty rest else entries
  end.

(** What later entries add to a history that is not empty. *)
Fixpoint tail_of (entries : list string) : string :=
  match entries with
  | [] => ""
  | e :: rest => " -> " ++ e ++ tail_of rest
  end.

Module OnEventChannel.

Inductive call : Type :=
| SetNumChannels (numChannels : Z)
| SetLength (length : Z)
| SetShouldBeRecorded (status : bool).

Definition is_SetNumChannels (c : call) : bool :=
  match c with SetNumChannels _ => true | _ => false end.
Definition is_SetLength (c : call) : bool :=
  match c with SetLength _ => true | _ => false end.

(** The one call that sizes a channel of the given type. *)
Definition resizes (type : EventChannel.EventChannelTypes) (c : call) : bool :=
  if EventChannel.EventChannelTypes_eqb type EventChannel.TTL
  then is_SetNumChannels c else is_SetLength c.

Definition perform (size_t_bits : Z) (ch : EventChannel.t) (c : call) : EventChannel.t :=
  match c with
  | SetNumChannels n => EventChannel.setNumChannels size_t_bits ch n
  | SetLength L => EventChannel.setLength size_t_bits ch L
  | SetShouldBeRecorded status => EventChannel.setShouldBeRecorded ch status
  end.

Definition run (size_t_bits : Z) (ch : EventChannel.t) (calls : list call)
  : EventChannel.t :=
  fold_left (perform size_t_bits) calls ch.

End OnEventChannel.

Module OnDataChannel.

Inductive call : Type :=
| SetBitVolts (bitVolts : CTypes.float)
| SetEnable (e : bool)
| SetMonitored (e : bool)
| SetRecordState (t : bool)
| Reset
| SetSampleRate (sampleRate : CTypes.float)
| SetName (name : string)
| SetDescriptor (descriptor : string)
| SetDescription (description : string)
| AddToHistoricString (entry : string).

(** What a getter returns after a sequence of calls, given the value
    each call writes, if any: the last value written, or the current one. *)
Fixpoint last_written {A : Type} (written : call -> option A) (calls : list call)
  (current : A) : A :=
  match calls with
  | [] => current
  | c :: rest =>
      last_written written rest
        (match written c with Some v => v | None => current end)
  end.

(** What each call writes: [Reset] writes the defaults. *)
Definition writes_name (c : call) : option string :=
  match c with SetName s => Some s | _ => None end.
Definition writes_descriptor (c : call) : option string :=
  match c with SetDescriptor s => Some s | _ => None end.
Definition writes_description (c : call) : option string :=
  match c with SetDescription s => Some s | _ => None end.
Definition writes_bitVolts (c : call) : option CTypes.float :=
  match c with
  | SetBitVolts v => Some v
  | Reset => Some (CTypes.float_of_Z 1)
  | _ => None
  end.
Definition writes_sampleRate (c : call) : option CTypes.float :=
  match c with
  | SetSampleRate r => Some r
  | Reset => Some (CTypes.float_of_Z 44100)
  | _ => None
  end.
Definition writes_enabled (c : call) : option bool :=
  match c with SetEnable e => Some e | Reset => Some true | _ => None end.
Definition writes_monitored (c : call) : option bool :=
  match c with SetMonitored e => Some e | Reset => Some false | _ => None end.
Definition writes_recording (c : call) : option bool :=
  match c with SetRecordState t => Some t | Reset => Some false | _ => None end.

Section WithMetaData.
Variable MetaDataInfoObject : Type.
Implicit Type ch : DataChannel.t MetaDataInfoObject.

(** The member functions a [DataChannel] inherits, on the sub-object they
    belong to. *)
Definition on_common ch (f : InfoObjectCommon.t -> InfoObjectCommon.t)
  : DataChannel.t MetaDataInfoObject :=
  {| DataChannel.common := f (DataChannel.common ch);
     DataChannel.metadata := DataChannel.metadata ch;
     DataChannel.history := DataChannel.history ch;
     DataChannel.m_type := DataChannel.m_type ch;
     DataChannel.m_bitVolts := DataChannel.m_bitVolts ch;
     DataChannel.m_isEnabled := DataChannel.m_isEnabled ch;
     DataChannel.m_isMonitored := DataChannel.m_isMonitored ch;
     DataChannel.m_isRecording := DataChannel.m_isRecording ch |}.

Definition on_named (c : InfoObjectCommon.t)
  (f : NamedInfoObject.t -> NamedInfoObject.t) : InfoObjectCommon.t :=
  {| InfoObjectCommon.node := InfoObjectCommon.node c;
     InfoObjectCommon.source := InfoObjectCommon.source c;
     InfoObjectCommon.named := f (InfoObjectCommon.named c);
     InfoObjectCommon.m_sourceIndex := InfoObjectCommon.m_sourceIndex c;
     InfoObjectCommon.m_sourceTypeIndex := InfoObjectCommon.m_sourceTypeIndex c;
     InfoObjectCommon.m_sampleRate := InfoObjectCommon.m_sampleRate c |}.

Definition on_history ch (f : HistoryObject.t -> HistoryObject.t)
  : DataChannel.t MetaDataInfoObject :=
  {| DataChannel.common := DataChannel.common ch;
     DataChannel.metadata := DataChannel.metadata ch;
     DataChannel.history := f (DataChannel.history ch);
     DataChannel.m_type := DataChannel.m_type ch;
     DataChannel.m_bitVolts := DataChannel.m_bitVolts ch;
     DataChannel.m_isEnabled := DataChannel.m_isEnabled ch;
     DataChannel.m_isMonitored := DataChannel.m_isMonitored ch;
     DataChannel.m_isRecording := DataChannel.m_isRecording ch |}.

Definition perform ch (c : call) : DataChannel.t MetaDataInfoObject :=
  match c with
  | SetBitVolts v => DataChannel.setBitVolts ch v
  | SetEnable e => DataChannel.setEnable ch e
  | SetMonitored e => DataChannel.setMonitored ch e
  | SetRecordState t => DataChannel.setRecordState ch t
  | Reset => DataChannel.reset ch
  | SetSampleRate r =>
      on_common ch (fun c => InfoObjectCommon.setSampleRate c r)
  | SetName s =>
      on_common ch (fun c => on_named c (fun n => NamedInfoObject.setName n s))
  | SetDescriptor s =>
      on_common ch (fun c => on_named c (fun n => NamedInfoObject.setDescriptor n s))
  | SetDescription s =>
      on_common ch (fun c => on_named c (fun n => NamedInfoObject.setDescription n s))
  | AddToHistoricString entry =>
      on_history ch (fun h => HistoryObject.addToHistoricString h entry)
  end.

Definition run ch (calls : list call) : DataChannel.t MetaDataInfoObject :=
  fold_left perform calls ch.

End WithMetaData.
End OnDataChannel.

End Calls.

(* ================================================================== *)
(** * Properties of the channel descriptors *)
(* ================================================================== *)

Module HistoryObjectSpec.
Import HistoryObject.

Lemma isEmpty_true (s : string) : isEmpty s = true <-> s = ""%string.
Proof. destruct s; simpl; split; congruence. Qed.

Lemma prefix_append (s r : string) : String.prefix s (s ++ r) = true.
Proof.
  induction s as [| c s IH]; simpl.
  - now destruct r.
  - destruct (ascii_dec c c) as [_ | Hc]; [exact IH | congruence].
Qed.

Lemma length_append (s r : string) :
  String.length (s ++ r) = (String.length s + String.length r)%nat.
Proof. induction s as [| c s IH]; simpl; [reflexivity | now rewrite IH]. Qed.

(** C9.  Appending an entry [E] to the history turns a non-empty historic
    string [prior] into [prior -> E] and an empty one into [E]; the prior
    string is a prefix of the new one, which is therefore never shorter. *)
Theorem addToHistoricString_appends (h : HistoryObject.t) (E : string) :
  let prior := getHistoricString h in
  let after := getHistoricString (addToHistoricString h E) in
  (prior <> ""%string -> after = (prior ++ " -> " ++ E)%string)
  /\ (prior = ""%string -> after = E)
  /\ String.prefix prior after = true
  /\ (String.length prior <= String.length after)%nat.
Proof.
  cbv zeta. unfold getHistoricString, addToHistoricString.
  destruct h as [prior]; simpl.
  destruct prior as [| c prior]; simpl.
  - repeat split; try congruence; try lia. now destruct E.
  - repeat split; try congruence.
    + destruct (ascii_dec c c) as [_ | Hc]; [apply prefix_append | congruence].
    + rewrite length_append. lia.
Qed.

End HistoryObjectSpec.

Module DataChannelSpec.
Import DataChannel.

Section WithMetaData.
Variable MetaDataInfoObject : Type.
Implicit Type ch : DataChannel.t MetaDataInfoObject.

(** C7.  Whatever the flags of the channel that is copied, the copy is
    enabled, not monitored and not recording. *)
Theorem copy_resets_flags ch :
  isEnabled (copy ch) = true
  /\ isMonitored (copy ch) = false
  /\ getRecordState (copy ch) = false.
Proof. unfold copy, isEnabled, isMonitored, getRecordState; simpl. auto. Qed.

(** C10.  Apart from the three flags the copy equals the channel that is
    copied: same channel type and bitVolts, same source and type indices,
    same node identity and provenance, and the same base sub-objects as a
    whole (named attributes, sample rate, meta data, history). *)
Theorem copy_preserves_descriptor ch :
  getChannelType (copy ch) = getChannelType ch
  /\ getBitVolts (copy ch) = getBitVolts ch
  /\ InfoObjectCommon.getSourceIndex (common (copy ch))
     = InfoObjectCommon.getSourceIndex (common ch)
  /\ InfoObjectCommon.getSourceTypeIndex (common (copy ch))
     = InfoObjectCommon.getSourceTypeIndex (common ch)
  /\ InfoObjectCommon.getCurrentNodeID (common (copy ch))
     = InfoObjectCommon.getCurrentNodeID (common ch)
  /\ InfoObjectCommon.source (common (copy ch)) = InfoObjectCommon.source (common ch)
  /\ common (copy ch) = common ch
  /\ metadata (copy ch) = metadata ch
  /\ history (copy ch) = history ch
  /\ copy ch = setRecordState (setMonitored (setEnable ch true) false) false.
Proof. destruct ch; cbv; repeat split. Qed.

(** A copy of a copy is the copy: the flags are the only thing a copy
    changes. *)
Lemma copy_idempotent ch : copy (copy ch) = copy ch.
Proof. reflexivity. Qed.

(** C8.  After [reset] the channel has bitVolts 1.0 and sample rate 44100,
    is enabled, not monitored and not recording, whatever it held before. *)
Theorem reset_restores_defaults ch :
  getBitVolts (reset ch) = CTypes.float_of_Z 1
  /\ getSampleRate (reset ch) = CTypes.float_of_Z 44100
  /\ isEnabled (reset ch) = true
  /\ isMonitored (reset ch) = false
  /\ getRecordState (reset ch) = false.
Proof. unfold reset; cbn -[CTypes.float_of_Z]. repeat split. Qed.

(** [reset] leaves the identity, the type, the meta data and the history
    of the channel alone. *)
Lemma reset_frame ch :
  getChannelType (reset ch) = getChannelType ch
  /\ InfoObjectCommon.node (common (reset ch)) = InfoObjectCommon.node (common ch)
  /\ InfoObjectCommon.source (common (reset ch)) = InfoObjectCommon.source (common ch)
  /\ InfoObjectCommon.named (common (reset ch)) = InfoObjectCommon.named (common ch)
  /\ metadata (reset ch) = metadata ch
  /\ history (reset ch) = history ch.
Proof. repeat split. Qed.

End WithMetaData.

(** The two constants of [reset] as binary32 numbers: [1.0f] is
    [2^23 * 2^-23] with bit pattern [0x3F800000], and [44100] is
    [11289600 * 2^-8] with bit pattern [0x472C4400]; both are exact. *)
Lemma float_one :
  CTypes.float_of_Z 1 = S754_finite false 8388608 (-23)
  /\ CTypes.bits_of_float (CTypes.float_of_Z 1) = 0x3F800000.
Proof. split; reflexivity. Qed.

Lemma float_44100 :
  CTypes.float_of_Z 44100 = S754_finite false 11289600 (-8)
  /\ 11289600 = 44100 * 2 ^ 8
  /\ CTypes.bits_of_float (CTypes.float_of_Z 44100) = 0x472C4400.
Proof. repeat split; reflexivity. Qed.

End DataChannelSpec.

Module EventChannelSpec.
Import EventChannel.

Lemma EventChannelTypes_eqb_spec (a b : EventChannelTypes) :
  reflect (a = b) (EventChannelTypes_eqb a b).
Proof. destruct a, b; simpl; constructor; congruence. Qed.

Lemma EventChannelTypes_eqb_refl (a : EventChannelTypes) :
  EventChannelTypes_eqb a a = true.
Proof. now destruct a. Qed.

Lemma EventChannelTypes_eqb_neq (a b : EventChannelTypes) :
  a <> b -> EventChannelTypes_eqb a b = false.
Proof. intros H. destruct (EventChannelTypes_eqb_spec a b); congruence. Qed.

(** [ceil(n / 8)] in integer arithmetic. *)
Lemma ceil_div8_eq (n : Z) : ceil_div8 n = (n + 7) / 8.
Proof.
  unfold ceil_div8, Qceiling, Qfloor, Qopp; simpl.
  Z.div_mod_to_equations. lia.
Qed.

Lemma ceil_div8_least (n : Z) :
  n <= 8 * ceil_div8 n /\ 8 * (ceil_div8 n - 1) < n.
Proof. rewrite ceil_div8_eq. Z.div_mod_to_equations. lia. Qed.

(** C5.  [getTypeByteSize] is defined on every event channel type: the
    eight integer array kinds have the byte width of their elements, and
    the two other kinds, TTL and text, have 1. *)
Theorem getTypeByteSize_table :
  getTypeByteSize INT8_ARRAY = 1 /\ getTypeByteSize UINT8_ARRAY = 1
  /\ getTypeByteSize INT16_ARRAY = 2 /\ getTypeByteSize UINT16_ARRAY = 2
  /\ getTypeByteSize INT32_ARRAY = 4 /\ getTypeByteSize UINT32_ARRAY = 4
  /\ getTypeByteSize INT64_ARRAY = 8 /\ getTypeByteSize UINT64_ARRAY = 8
  /\ getTypeByteSize TTL = 1 /\ getTypeByteSize TEXT = 1
  /\ (forall type, getTypeByteSize type = elementByteSize type)
  /\ (forall type, In (getTypeByteSize type) [1; 2; 4; 8]).
Proof.
  repeat split; try reflexivity; intros type; destruct type; simpl; auto.
Qed.

Section WithSizeT.
Variable size_t_bits : Z.

(** Setting the channel count stores it, whatever the type. *)
Lemma setNumChannels_stores (ch : t) (n : Z) :
  getNumChannels (setNumChannels size_t_bits ch n) = n
  /\ getChannelType (setNumChannels size_t_bits ch n) = getChannelType ch.
Proof.
  unfold setNumChannels; cbv zeta; simpl.
  destruct (EventChannelTypes_eqb (m_type ch) TTL); simpl; auto.
Qed.

(** On a channel that is not TTL, [setNumChannels] changes neither the
    length nor the data size. *)
Lemma setNumChannels_other_types (ch : t) (n : Z) :
  getChannelType ch <> TTL ->
  getLength (setNumChannels size_t_bits ch n) = getLength ch
  /\ getDataSize (setNumChannels size_t_bits ch n) = getDataSize ch.
Proof.
  unfold getChannelType. intros Hty.
  unfold setNumChannels; cbv zeta; simpl.
  rewrite (EventChannelTypes_eqb_neq _ _ Hty). simpl. auto.
Qed.

(** On a TTL channel, and as long as [n + 7] fits [unsigned int],
    [setNumChannels n] sets the length to [ceil(n / 8)] and the data size
    to the length. *)
Lemma setNumChannels_TTL_no_overflow (ch : t) (n : Z) :
  getChannelType ch = TTL ->
  CTypes.unsigned_int_bits <= size_t_bits ->
  0 <= n <= 2 ^ 32 - 8 ->
  getLength (setNumChannels size_t_bits ch n) = ceil_div8 n
  /\ getDataSize (setNumChannels size_t_bits ch n) = ceil_div8 n.
Proof.
  unfold getChannelType, CTypes.unsigned_int_bits. intros Hty Hsz Hn.
  unfold setNumChannels; cbv zeta; simpl.
  rewrite Hty; simpl.
  rewrite ceil_div8_eq.
  unfold CTypes.wrap, CTypes.unsigned_int_bits.
  rewrite (Z.mod_small (n + 7)) by lia.
  split; [reflexivity |].
  apply Z.mod_small.
  assert (2 ^ 32 <= 2 ^ size_t_bits) by (apply Z.pow_le_mono_r; lia).
  split; [apply Z.div_pos; lia |].
  apply Z.le_lt_trans with (n + 7); [| lia].
  apply Z.div_le_upper_bound; lia.
Qed.

(** C1.  [setNumChannels(4294967295)] on a TTL channel: [numChannels + 7]
    wraps around in [unsigned int], and the channel is left with length 0
    and data size 0, where [ceil(4294967295 / 8)] is 536870912. *)
Theorem setNumChannels_TTL_wraps (ch : t) :
  getChannelType ch = TTL ->
  let ch' := setNumChannels size_t_bits ch 4294967295 in
  CTypes.is_unsigned_int 4294967295
  /\ getNumChannels ch' = 4294967295
  /\ getLength ch' = 0
  /\ getDataSize ch' = 0
  /\ ceil_div8 4294967295 = 536870912.
Proof.
  unfold getChannelType. intros Hty. cbv zeta.
  unfold setNumChannels; cbv zeta; simpl.
  rewrite Hty; simpl.
  split; [unfold CTypes.is_unsigned_int, CTypes.in_range; simpl; lia |].
  split; [reflexivity |].
  split; [reflexivity |].
  split; [unfold CTypes.wrap; apply Zmod_0_l | reflexivity].
Qed.

(** C3.  On a channel that is not TTL, and on a target whose [size_t] has
    35 bits or more (every 64-bit target), [setLength(L)] sets the length
    to [L] and the data size to [L * elementByteSize(type)], plus one byte
    exactly when the type is text. *)
Theorem setLength_sizes (ch : t) (L : Z) :
  35 <= size_t_bits ->
  CTypes.is_unsigned_int L ->
  getChannelType ch <> TTL ->
  getLength (setLength size_t_bits ch L) = L
  /\ getDataSize (setLength size_t_bits ch L)
     = L * elementByteSize (getChannelType ch)
       + (if EventChannelTypes_eqb (getChannelType ch) TEXT then 1 else 0).
Proof.
  unfold CTypes.is_unsigned_int, CTypes.in_range, CTypes.unsigned_int_bits.
  unfold getChannelType. intros Hsz HL Hty.
  assert (Hpow : 2 ^ 35 <= 2 ^ size_t_bits) by (apply Z.pow_le_mono_r; lia).
  unfold setLength; cbv zeta.
  rewrite (EventChannelTypes_eqb_neq _ _ Hty); simpl.
  unfold CTypes.wrap.
  destruct (m_type ch) eqn:E; try congruence; simpl;
    (split; [reflexivity |]);
    match goal with
    | |- context [(L * ?k) mod _] => rewrite (Z.mod_small (L * k)) by lia
    end;
    try rewrite Z.mod_small by lia; lia.
Qed.

(** The frame of [setLength]: the type, the channel count, the recording
    flag and the identity of the channel stay as they are. *)
Lemma setLength_frame (ch : t) (L : Z) :
  getChannelType (setLength size_t_bits ch L) = getChannelType ch
  /\ getNumChannels (setLength size_t_bits ch L) = getNumChannels ch
  /\ getShouldBeRecorded (setLength size_t_bits ch L) = getShouldBeRecorded ch
  /\ common (setLength size_t_bits ch L) = common ch.
Proof.
  unfold setLength; cbv zeta.
  destruct (EventChannelTypes_eqb (m_type ch) TTL); [auto |].
  simpl. destruct (EventChannelTypes_eqb (m_type ch) TEXT); simpl; auto.
Qed.

(** C4.  On a TTL channel [setLength(L)] does nothing, whatever [L] is:
    length, data size and channel count are the ones before the call, and
    so is the rest of the object. *)
Theorem setLength_TTL_noop (ch : t) (L : Z) :
  getChannelType ch = TTL ->
  getLength (setLength size_t_bits ch L) = getLength ch
  /\ getDataSize (setLength size_t_bits ch L) = getDataSize ch
  /\ getNumChannels (setLength size_t_bits ch L) = getNumChannels ch
  /\ setLength size_t_bits ch L = ch.
Proof.
  unfold getChannelType. intros Hty.
  unfold setLength. rewrite Hty. simpl. auto.
Qed.

End WithSizeT.

(** The example of the design document: a TTL channel with 12, then 16,
    then 17 lines has length and data size 2, 2 and 3. *)
Lemma setNumChannels_12_16_17 :
  let ch12 := setNumChannels 64 (Samples.event_channel TTL) 12 in
  let ch16 := setNumChannels 64 ch12 16 in
  let ch17 := setNumChannels 64 ch16 17 in
  (getLength ch12 = 2 /\ getDataSize ch12 = 2)
  /\ (getLength ch16 = 2 /\ getDataSize ch16 = 2)
  /\ (getLength ch17 = 3 /\ getDataSize ch17 = 3).
Proof. vm_compute. repeat split. Qed.

(** The channel counts of section 8 of the design document. *)
Lemma setNumChannels_small_counts :
  map (fun n => getLength (setNumChannels 64 (Samples.event_channel TTL) n))
      [0; 1; 7; 8; 9; 64]
  = [0; 1; 1; 1; 2; 8].
Proof. reflexivity. Qed.

Lemma setNumChannels_TTL_wraps_witness :
  let ch' := setNumChannels 64 (Samples.event_channel TTL) 4294967295 in
  CTypes.is_unsigned_int 4294967295
  /\ getNumChannels ch' = 4294967295
  /\ getLength ch' = 0
  /\ getDataSize ch' = 0
  /\ ceil_div8 4294967295 = 536870912.
Proof. apply (setNumChannels_TTL_wraps 64 (Samples.event_channel TTL)). reflexivity. Defined.

Lemma setLength_sizes_witness :
  getLength (setLength 64 (Samples.event_channel TEXT) 10) = 10
  /\ getDataSize (setLength 64 (Samples.event_channel TEXT) 10)
     = 10 * elementByteSize (getChannelType (Samples.event_channel TEXT))
       + (if EventChannelTypes_eqb (getChannelType (Samples.event_channel TEXT)) TEXT
          then 1 else 0).
Proof.
  apply (setLength_sizes 64 (Samples.event_channel TEXT) 10).
  - lia.
  - unfold CTypes.is_unsigned_int, CTypes.in_range, CTypes.unsigned_int_bits; lia.
  - discriminate.
Defined.

Lemma setLength_TTL_noop_witness :
  getLength (setLength 64 (Samples.event_channel TTL) 5) = getLength (Samples.event_channel TTL)
  /\ getDataSize (setLength 64 (Samples.event_channel TTL) 5) = getDataSize (Samples.event_channel TTL)
  /\ getNumChannels (setLength 64 (Samples.event_channel TTL) 5) = getNumChannels (Samples.event_channel TTL)
  /\ setLength 64 (Samples.event_channel TTL) 5 = Samples.event_channel TTL.
Proof. apply (setLength_TTL_noop 64 (Samples.event_channel TTL) 5). reflexivity. Defined.

(** Where [size_t] has 32 bits the product of [setLength] wraps around:
    [2^29] elements of 8 bytes give data size 0. *)
Remark setLength_32_bit_size_t :
  getDataSize (setLength 32 (Samples.event_channel INT64_ARRAY) (2 ^ 29)) = 0.
Proof. reflexivity. Qed.

End EventChannelSpec.

Module SpikeChannelSpec.
Import SpikeChannel.

Lemma getNumChannels_channelCountFor (type : ElectrodeTypes) :
  getNumChannels type = channelCountFor type.
Proof. now destruct type. Qed.

Section WithMetaData.
Variable MetaDataInfoObject : Type.
Implicit Type sourceChannels : list (DataChannel.t MetaDataInfoObject).

(** The loop of the constructor adds the identity triples of the source
    channels, in their order. *)
Lemma fold_left_add sourceChannels (added : list sourceChannelInfo) :
  fold_left (fun added chan => added ++ [info_of chan]) sourceChannels added
  = added ++ map info_of sourceChannels.
Proof.
  revert added. induction sourceChannels as [| chan rest IH]; intros added; simpl.
  - now rewrite app_nil_r.
  - rewrite IH, <- app_assoc. reflexivity.
Qed.


(** With the right number of source channels the construction goes
    through, and the channel refers to each of them. *)
Lemma ctor_site_count_match (init : t) (type : ElectrodeTypes)
  (idx typeidx : Z) (src : GenericProcessor.t) sourceChannels (subproc : Z) :
  Z.of_nat (List.length sourceChannels) = channelCountFor type ->
  exists ch,
    ctor init type idx typeidx src sourceChannels subproc = Constructed ch
    /\ getChannelType ch = type
    /\ getSourceChannelInfo ch = m_sourceInfo init ++ map info_of sourceChannels.
Proof.
  intros Hn. unfold ctor, jassert; cbv zeta.
  rewrite getNumChannels_channelCountFor, Hn, Z.eqb_refl.
  eexists; split; [reflexivity |]. split; [reflexivity |].
  unfold getSourceChannelInfo; simpl. apply fold_left_add.
Qed.

End WithMetaData.


(** The three electrode types, each with one source channel too few or
    too many: the assertion fails, and the channel is built with the
    entries given, none, one and five. *)
Lemma ctor_flags_each_type :
  let count (r : asserted SpikeChannel.t) :=
    (assertions_held r, List.length (getSourceChannelInfo (built r)),
     getNumChannels_of (built r)) in
  count (ctor Samples.spike_init SINGLE 0 0 Samples.processor
           (@nil (DataChannel.t unit)) 0) = (false, 0%nat, 1)
  /\ count (ctor Samples.spike_init STEREOTRODE 0 0 Samples.processor
              [Samples.data_channel] 0) = (false, 1%nat, 2)
  /\ count (ctor Samples.spike_init TETRODE 0 0 Samples.processor
              [Samples.data_channel; Samples.data_channel; Samples.data_channel;
               Samples.data_channel; Samples.data_channel] 0) = (false, 5%nat, 4).
Proof. repeat split. Qed.

End SpikeChannelSpec.

(* ================================================================== *)
(** * Properties of the event codec *)
(* ================================================================== *)

Module CTypesSpec.
Import CTypes.

(** The number of binary digits of a mantissa brackets it between two
    powers of two. *)
Lemma digits2_pos_bounds (p : positive) :
  2 ^ (Z.pos (digits2_pos p) - 1) <= Z.pos p < 2 ^ Z.pos (digits2_pos p).
Proof.
  induction p as [p IH | p IH |]; simpl digits2_pos.
  - rewrite Pos2Z.inj_succ.
    replace (Z.succ (Z.pos (digits2_pos p)) - 1) with (Z.succ (Z.pos (digits2_pos p) - 1)) by lia.
    rewrite !Z.pow_succ_r by lia. lia.
  - rewrite Pos2Z.inj_succ.
    replace (Z.succ (Z.pos (digits2_pos p)) - 1) with (Z.succ (Z.pos (digits2_pos p) - 1)) by lia.
    rewrite !Z.pow_succ_r by lia. lia.
  - simpl. lia.
Qed.

(** The three fields of a 32-bit pattern composed of a sign, a biased
    exponent and a fraction. *)
Lemma bit_fields (s : bool) (E f : Z) :
  0 <= E < 256 -> 0 <= f < 2 ^ 23 ->
  let w := sign_bit s + E * 2 ^ 23 + f in
  0 <= w < 2 ^ 32
  /\ Z.testbit w 31 = s
  /\ (w / 2 ^ 23) mod 2 ^ 8 = E
  /\ w mod 2 ^ 23 = f.
Proof.
  intros HE Hf w.
  assert (Hw : w = (if s then 1 else 0) * 2 ^ 31 + E * 2 ^ 23 + f)
    by (unfold w, sign_bit; destruct s; lia).
  change (2 ^ 23) with 8388608 in *. change (2 ^ 31) with 2147483648 in *.
  change (2 ^ 32) with 4294967296. change (2 ^ 8) with 256.
  split; [destruct s; lia |].
  split.
  - rewrite Z.testbit_odd, Z.shiftr_div_pow2 by lia.
    change (2 ^ 31) with 2147483648.
    replace (w / 2147483648) with (if s then 1 else 0).
    + now destruct s.
    + destruct s; Z.div_mod_to_equations; lia.
  - split; destruct s; Z.div_mod_to_equations; lia.
Qed.

(** A binary32 number is subnormal, with the least exponent, or normal,
    with a 24-bit mantissa. *)
Lemma bounded_cases (m : positive) (e : Z) :
  bounded float_prec float_emax m e = true ->
  (Z.pos m < 2 ^ 23 /\ e = -149)
  \/ (2 ^ 23 <= Z.pos m < 2 ^ 24 /\ -149 <= e <= 104).
Proof.
  unfold bounded, canonical_mantissa, fexp, emin, float_prec, float_emax.
  intros Hx. apply andb_true_iff in Hx. destruct Hx as [Hc He].
  apply Z.eqb_eq in Hc. apply Z.leb_le in He.
  pose proof (digits2_pos_bounds m) as Hd.
  set (d := Z.pos (digits2_pos m)) in *.
  destruct (Z.lt_ge_cases (Z.pos m) (2 ^ 23)) as [Hm | Hm].
  - left. split; [assumption |].
    assert (d <= 23); [| lia].
    destruct (Z.le_gt_cases d 23) as [| Hgt]; [assumption |].
    assert (2 ^ 23 <= 2 ^ (d - 1)) by (apply Z.pow_le_mono_r; lia). lia.
  - right.
    assert (24 <= d).
    { destruct (Z.le_gt_cases 24 d) as [| Hlt]; [assumption |].
      assert (2 ^ d <= 2 ^ 23) by (apply Z.pow_le_mono_r; lia). lia. }
    assert (Hd24 : d = 24) by lia.
    rewrite Hd24 in Hd. lia.
Qed.

(** Every [float] is the value of its own bit pattern, which fits 32
    bits. *)
Lemma float_of_bits_of_float (x : float) :
  is_float x ->
  float_of_bits (bits_of_float x) = x /\ 0 <= bits_of_float x < 2 ^ 32.
Proof.
  unfold is_float.
  destruct x as [s | s | | s m e]; intros Hx.
  - destruct (bit_fields s 0 0) as (Hr & Hs & HE & Hf); [lia | lia |].
    cbv zeta in *. rewrite Z.mul_0_l, !Z.add_0_r in *.
    unfold bits_of_float, float_of_bits. rewrite Hs, HE, Hf. auto.
  - destruct (bit_fields s 255 0) as (Hr & Hs & HE & Hf); [lia | lia |].
    cbv zeta in *. rewrite !Z.add_0_r in *.
    unfold bits_of_float, float_of_bits. rewrite Hs, HE, Hf. auto.
  - split; [reflexivity | simpl; lia].
  - simpl in Hx. unfold bits_of_float.
    destruct (bounded_cases m e Hx) as [[Hm He] | [Hm He]].
    + subst e. rewrite (proj2 (Z.ltb_lt _ _) Hm).
      destruct (bit_fields s 0 (Z.pos m)) as (Hr & Hs & HE & Hf); [lia | lia |].
      cbv zeta in *. rewrite Z.mul_0_l, !Z.add_0_r in *.
      unfold float_of_bits. rewrite Hs, HE, Hf. auto.
    + rewrite (proj2 (Z.ltb_ge _ _) (proj1 Hm)).
      destruct (bit_fields s (e + 150) (Z.pos m - 2 ^ 23)) as (Hr & Hs & HE & Hf);
        [lia | change (2 ^ 24) with (2 * 2 ^ 23) in *; lia |].
      cbv zeta in *.
      unfold float_of_bits. rewrite Hs, HE, Hf.
      replace (e + 150 =? 0) with false by (symmetry; apply Z.eqb_neq; lia).
      replace (e + 150 =? 255) with false by (symmetry; apply Z.eqb_neq; lia).
      replace (2 ^ 23 + (Z.pos m - 2 ^ 23)) with (Z.pos m) by lia.
      replace (e + 150 - 150) with e by lia. auto.
Qed.

End CTypesSpec.

(** One step of a decoder or encoder whose current check or read is
    known to succeed. *)
Ltac codec_step := cbn [andb Codec.require Codec.bind].

Module CodecSpec.
Import Codec.

(** Reading [n] bytes off a message that starts with [n] bytes returns
    them and leaves the rest. *)
Lemma read_bytes_exact (n : nat) (bs rest : list byte) :
  List.length bs = n -> read_bytes n (bs ++ rest) = Ok (bs, rest).
Proof.
  intros <-. unfold read_bytes. rewrite length_app.
  destruct (Nat.ltb_spec (List.length bs + List.length rest) (List.length bs)); [lia |].
  rewrite firstn_app, skipn_app, Nat.sub_diag, firstn_all, skipn_all.
  simpl. now rewrite app_nil_r.
Qed.

(** A little-endian field is read back as the number that was written,
    provided the number fits the field. *)
Lemma read_le_split (n : nat) (z : Z) (rest : list byte) :
  CTypes.in_range (8 * Z.of_nat n) z ->
  read_le n (le_split n z ++ rest) = Ok (z, rest).
Proof.
  unfold CTypes.in_range. intros Hz. unfold read_le.
  rewrite (read_bytes_exact n _ rest (length_le_split n z)). codec_step.
  rewrite le_combine_split, Z.mod_small; [reflexivity |].
  now rewrite Z.mul_comm.
Qed.

End CodecSpec.

Module HeaderSpec.
Import Header.

(** A header takes 18 bytes. *)
Lemma length_write (h : t) : Z.of_nat (List.length (write h)) = size.
Proof. unfold write. rewrite !length_app, !length_le_split. reflexivity. Qed.

(** A header whose fields fit is read back as it was written. *)
Lemma read_write (h : t) (rest : list byte) :
  fits h -> read (write h ++ rest) = Codec.Ok (h, rest).
Proof.
  unfold Header.fits, CTypes.is_uint16, CTypes.is_uint64.
  intros (Het & Hst & Hpid & Hsub & Hidx & Hvc & Hts).
  unfold read, write. rewrite <- !app_assoc.
  repeat (rewrite CodecSpec.read_le_split by assumption; codec_step).
  now destruct h.
Qed.
End HeaderSpec.

Module EventSpec.
Import Event.

(** The sub-type of an event fits its byte. *)
Lemma EventChannelTypes_value_fits (type : EventChannel.EventChannelTypes) :
  CTypes.in_range 8 (EventChannelTypes_value type).
Proof. unfold CTypes.in_range. destruct type; simpl; lia. Qed.

(** The header of an event built against a descriptor fits. *)
Lemma header_of_fits (ci : EventChannel.t) (e : t) (type : EventChannel.EventChannelTypes) :
  Event_built_against ci e -> Header.fits (header_of e type).
Proof.
  intros (Hci & _ & Hbase & Hts & Hch & _ & Hid1 & Hid2 & Hid3).
  unfold Header.fits, header_of; simpl. rewrite Hci, Hbase.
  repeat split; try assumption; try apply EventChannelTypes_value_fits;
    try apply Hts; try apply Hch; try apply Hid1; try apply Hid2; try apply Hid3;
    simpl; lia.
Qed.

(** [serializeHeader] accepts an event built against its descriptor when
    the buffer is large enough. *)
Lemma serializeHeader_ok (ci : EventChannel.t) (e : t)
  (type : EventChannel.EventChannelTypes) (dstSize : Z) :
  Event_built_against ci e ->
  EventChannel.getChannelType ci = type ->
  Header.size + EventChannel.getDataSize ci <= dstSize ->
  serializeHeader e type dstSize = Codec.Ok (Header.write (header_of e type)).
Proof.
  intros (<- & Hty & _) Htype Hsz. unfold serializeHeader.
  rewrite Hty, Htype, EventChannelSpec.EventChannelTypes_eqb_refl.
  codec_step.
  rewrite (proj2 (Z.leb_le _ _) Hsz). reflexivity.
Qed.

(** The shared part of the decoders recovers the event fields and the
    payload from header, payload and whatever follows. *)
Lemma deserializeHeader_ok (ci : EventChannel.t) (e : t)
  (type : EventChannel.EventChannelTypes) (payload rest : list byte) :
  Event_built_against ci e ->
  EventChannel.getChannelType ci = type ->
  Z.of_nat (List.length payload) = EventChannel.getDataSize ci ->
  deserializeHeader (Header.write (header_of e type) ++ payload ++ rest) ci type
  = Codec.Ok (e, payload).
Proof.
  intros Hbuilt Htype Hlen. unfold deserializeHeader.
  rewrite (HeaderSpec.read_write _ _ (header_of_fits ci e type Hbuilt)).
  destruct Hbuilt as (Hci & Hty & Hbase & Hts & Hch & Hnum & Hid).
  codec_step. unfold header_of; cbn [Header.eventType Header.subType
    Header.sourceProcessorID Header.sourceSubStream Header.sourceEventIndex
    Header.virtualChannel Header.timestamp].
  rewrite Hbase, Z.eqb_refl. codec_step.
  rewrite Htype, Z.eqb_refl, EventChannelSpec.EventChannelTypes_eqb_refl.
  codec_step.
  rewrite Hci, !Z.eqb_refl, (proj2 (Z.ltb_lt _ _) Hnum).
  codec_step.
  rewrite CodecSpec.read_bytes_exact by lia. codec_step.
  unfold ctor. rewrite <- Hty, <- Hbase.
  destruct e as [[bt ts] ch ci' ty]; simpl in *. now subst.
Qed.

End EventSpec.

Module TextEventSpec.
Import TextEvent.

(** Padding holds no text. *)
Lemma until_null_padding (n k : nat) : until_null (firstn n (repeat Byte.x00 k)) = [].
Proof. destruct n, k; reflexivity. Qed.

(** Reading a padded text back: the terminator or the declared length
    ends it, and the text itself has no null byte. *)
Lemma until_null_padded (bs : list byte) (n k : nat) :
  forallb (fun b => negb (Byte.eqb b Byte.x00)) bs = true ->
  (List.length bs <= n)%nat ->
  until_null (firstn n (bs ++ repeat Byte.x00 k)) = bs.
Proof.
  revert n. induction bs as [| b bs IH]; intros n Hnn Hlen.
  - apply until_null_padding.
  - destruct n as [| n]; [simpl in Hlen; lia |].
    simpl in Hnn. apply andb_true_iff in Hnn. destruct Hnn as [Hb Hbs].
    simpl. apply negb_true_iff in Hb. rewrite Hb.
    f_equal. apply IH; [assumption | simpl in Hlen; lia].
Qed.
End TextEventSpec.

Module SpikeEventSpec.
Import SpikeEvent.

(** A [float] is read back from its four bytes. *)
Lemma read_write_float (x : CTypes.float) (rest : list byte) :
  CTypes.is_float x -> read_float (write_float x ++ rest) = Codec.Ok (x, rest).
Proof.
  intros Hx. destruct (CTypesSpec.float_of_bits_of_float x Hx) as [Hrt Hrange].
  unfold read_float, write_float.
  rewrite CodecSpec.read_le_split by exact Hrange.
  codec_step. now rewrite Hrt.
Qed.

(** A waveform is read back from its bytes, sample by sample. *)
Lemma read_write_floats (xs : list CTypes.float) (rest : list byte) :
  Forall CTypes.is_float xs ->
  read_floats (List.length xs) (flat_map write_float xs ++ rest) = Codec.Ok (xs, rest).
Proof.
  induction 1 as [| x xs Hx _ IH]; [reflexivity |].
  cbn [List.length flat_map read_floats].
  rewrite <- app_assoc, (read_write_float x _ Hx). codec_step.
  rewrite IH. reflexivity.
Qed.

(** Every sample takes four bytes. *)
Lemma length_write_floats (xs : list CTypes.float) :
  List.length (flat_map write_float xs) = (4 * List.length xs)%nat.
Proof.
  induction xs as [| x xs IH]; [reflexivity |].
  cbn [flat_map]. rewrite length_app, IH. unfold write_float.
  rewrite length_le_split. simpl. lia.
Qed.
End SpikeEventSpec.

Module RoundTrip.

(** The packet of an [Event]: its size, its header and what the shared
    part of the decoders makes of it. *)
Lemma Event_packet (ci : EventChannel.t) (ev : Event.t)
  (type : EventChannel.EventChannelTypes) (payload : list byte) :
  Event_built_against ci ev ->
  EventChannel.getChannelType ci = type ->
  Z.of_nat (List.length payload) = EventChannel.getDataSize ci ->
  let msg := Header.write (Event.header_of ev type) ++ payload in
  Z.of_nat (List.length msg) = Header.size + EventChannel.getDataSize ci
  /\ Header.read msg = Codec.Ok (Event.header_of ev type, payload)
  /\ Event.deserializeHeader msg ci type = Codec.Ok (ev, payload).
Proof.
  intros Hbuilt Htype Hlen msg. unfold msg.
  split; [| split].
  - rewrite length_app, Nat2Z.inj_add, HeaderSpec.length_write. lia.
  - apply HeaderSpec.read_write. now apply EventSpec.header_of_fits with ci.
  - pose proof (EventSpec.deserializeHeader_ok ci ev type payload [] Hbuilt Htype Hlen) as H.
    now rewrite app_nil_r in H.
Qed.

(** Events of the [Event] hierarchy are processor events. *)
Lemma header_of_processor (ci : EventChannel.t) (ev : Event.t)
  (type : EventChannel.EventChannelTypes) :
  Event_built_against ci ev ->
  Header.eventType (Event.header_of ev type) = EventType_value PROCESSOR_EVENT.
Proof. intros (_ & _ & Hbase & _). simpl. now rewrite Hbase. Qed.

(** The round trip, class by class. *)
Lemma TTL_round_trip (ci : EventChannel.t) (e : TTLEvent.t) (dstSize : Z) :
  built_against (Event_channel ci) (TTL_event e) ->
  packetSize (Event_channel ci) <= dstSize ->
  round_trips (Event_channel ci) (TTL_event e) dstSize.
Proof.
  intros (Hbuilt & Hty & Hlen) Hsz. unfold packetSize in Hsz.
  destruct (Event_packet ci _ EventChannel.TTL _ Hbuilt Hty Hlen) as (Hsize & Hread & Hdes).
  exists (Header.write (Event.header_of (TTLEvent.event e) EventChannel.TTL) ++ TTLEvent.m_data e).
  split; [| split; [exact Hsize |]].
  - cbn [serialize]. unfold TTLEvent.serialize.
    rewrite (EventSpec.serializeHeader_ok ci) by assumption. codec_step.
    destruct Hbuilt as (-> & _). rewrite Hlen, Z.eqb_refl. reflexivity.
  - unfold deserializeFromMessage. rewrite Hread. codec_step.
    rewrite (header_of_processor ci) by assumption. rewrite Z.eqb_refl.
    unfold Event_deserializeFromMessage. rewrite Hread. codec_step.
    cbn [Event.header_of Header.subType]. rewrite Z.eqb_refl.
    unfold TTLEvent.deserializeFromMessage. rewrite Hdes. codec_step.
    now destruct e.
Qed.

Lemma Binary_round_trip (ci : EventChannel.t) (e : BinaryEvent.t) (dstSize : Z) :
  built_against (Event_channel ci) (Binary_event e) ->
  packetSize (Event_channel ci) <= dstSize ->
  round_trips (Event_channel ci) (Binary_event e) dstSize.
Proof.
  intros (Hbuilt & Harr & Hlen) Hsz. unfold packetSize in Hsz.
  set (type := EventChannel.getChannelType ci) in *.
  destruct (Event_packet ci _ type _ Hbuilt eq_refl Hlen) as (Hsize & Hread & Hdes).
  exists (Header.write (Event.header_of (BinaryEvent.event e) type) ++ BinaryEvent.m_data e).
  assert (Hty : Event.m_eventType (BinaryEvent.event e) = type) by apply Hbuilt.
  split; [| split; [exact Hsize |]].
  - cbn [serialize]. unfold BinaryEvent.serialize. rewrite Hty, Harr. codec_step.
    rewrite (EventSpec.serializeHeader_ok ci) by easy. codec_step.
    destruct Hbuilt as (-> & _). rewrite Hlen, Z.eqb_refl. reflexivity.
  - unfold deserializeFromMessage. rewrite Hread. codec_step.
    rewrite (header_of_processor ci) by assumption. rewrite Z.eqb_refl.
    unfold Event_deserializeFromMessage. rewrite Hread. codec_step.
    cbn [Event.header_of Header.subType].
    assert (Hsub : (EventChannelTypes_value type =? EventChannelTypes_value EventChannel.TTL) = false
                   /\ (EventChannelTypes_value type =? EventChannelTypes_value EventChannel.TEXT) = false)
      by (destruct type; try discriminate Harr; split; reflexivity).
    destruct Hsub as [-> ->].
    unfold BinaryEvent.deserializeFromMessage. fold type. rewrite Harr.
    codec_step. rewrite Hdes. codec_step.
    now destruct e.
Qed.

Lemma Text_round_trip (ci : EventChannel.t) (e : TextEvent.t) (dstSize : Z) :
  built_against (Event_channel ci) (Text_event e) ->
  packetSize (Event_channel ci) <= dstSize ->
  round_trips (Event_channel ci) (Text_event e) dstSize.
Proof.
  intros (Hbuilt & Hty & Hds & Hfit & Hnn) Hsz. unfold packetSize in Hsz.
  set (text := TextEvent.utf8 (TextEvent.m_text e)) in *.
  set (padding := repeat Byte.x00 (Z.to_nat (EventChannel.getDataSize ci) - List.length text)).
  assert (Hlen : Z.of_nat (List.length (text ++ padding)) = EventChannel.getDataSize ci).
  { unfold padding. rewrite length_app, repeat_length. lia. }
  destruct (Event_packet ci _ EventChannel.TEXT _ Hbuilt Hty Hlen) as (Hsize & Hread & Hdes).
  exists (Header.write (Event.header_of (TextEvent.event e) EventChannel.TEXT) ++ text ++ padding).
  split; [| split; [exact Hsize |]].
  - cbn [serialize]. unfold TextEvent.serialize.
    rewrite (EventSpec.serializeHeader_ok ci) by assumption. codec_step.
    destruct Hbuilt as (-> & _). fold text.
    rewrite (proj2 (Z.leb_le _ _) Hfit).
    rewrite (proj2 (Z.ltb_lt (Z.of_nat (List.length text)) (EventChannel.getDataSize ci))) by lia.
    reflexivity.
  - unfold deserializeFromMessage. rewrite Hread. codec_step.
    rewrite (header_of_processor ci) by assumption. rewrite Z.eqb_refl.
    unfold Event_deserializeFromMessage. rewrite Hread. codec_step.
    cbn [Event.header_of Header.subType].
    change (EventChannelTypes_value EventChannel.TEXT =? EventChannelTypes_value EventChannel.TTL) with false.
    rewrite Z.eqb_refl.
    unfold TextEvent.deserializeFromMessage. rewrite Hdes. codec_step.
    unfold padding. rewrite TextEventSpec.until_null_padded; [| exact Hnn | lia].
    unfold text, TextEvent.utf8. rewrite string_of_list_byte_of_string.
    now destruct e.
Qed.

(** The sub-type of a spike event fits its byte. *)
Lemma ElectrodeTypes_value_fits (type : SpikeChannel.ElectrodeTypes) :
  CTypes.in_range 8 (ElectrodeTypes_value type).
Proof. unfold CTypes.in_range. destruct type; simpl; lia. Qed.

(** The header of a spike event built against a descriptor fits. *)
Lemma Spike_header_fits (ci : SpikeChannel.t) (e : SpikeEvent.t) :
  built_against (Spike_channel ci) (Spike_event e) ->
  Header.fits (SpikeEvent.header_of e).
Proof.
  intros (Hci & Hbase & Hts & (Hid1 & Hid2 & Hid3) & _).
  unfold Header.fits, SpikeEvent.header_of; cbv zeta.
  cbn [Header.eventType Header.subType Header.sourceProcessorID
       Header.sourceSubStream Header.sourceEventIndex Header.virtualChannel
       Header.timestamp].
  rewrite Hci, Hbase.
  split; [unfold CTypes.in_range; simpl; lia |].
  split; [apply ElectrodeTypes_value_fits |].
  repeat (split; [assumption |]).
  split; [unfold CTypes.is_uint16, CTypes.in_range; lia | assumption].
Qed.

Lemma Spike_round_trip (ci : SpikeChannel.t) (e : SpikeEvent.t) (dstSize : Z) :
  built_against (Spike_channel ci) (Spike_event e) ->
  packetSize (Spike_channel ci) <= dstSize ->
  round_trips (Spike_channel ci) (Spike_event e) dstSize.
Proof.
  intros Hbuilt Hsz. unfold packetSize in Hsz.
  pose proof (Spike_header_fits ci e Hbuilt) as Hfits.
  destruct Hbuilt as (Hci & Hbase & Hts & Hid & Hthr & Hdata & Hlen).
  set (payload := SpikeEvent.write_float (SpikeEvent.m_threshold e)
                  ++ flat_map SpikeEvent.write_float (SpikeEvent.m_data e)).
  exists (Header.write (SpikeEvent.header_of e) ++ payload).
  pose proof (HeaderSpec.read_write _ payload Hfits) as Hread.
  split; [| split].
  - cbn [serialize]. unfold SpikeEvent.serialize. rewrite Hci.
    rewrite (proj2 (Z.leb_le _ _) Hsz), Hlen, Z.eqb_refl. reflexivity.
  - unfold payload, packetSize.
    rewrite !length_app, SpikeEventSpec.length_write_floats.
    unfold SpikeEvent.write_float at 1. rewrite length_le_split.
    pose proof (HeaderSpec.length_write (SpikeEvent.header_of e)). lia.
  - unfold deserializeFromMessage. rewrite Hread. codec_step.
    assert (Het : Header.eventType (SpikeEvent.header_of e) = EventType_value SPIKE_EVENT)
      by (simpl; now rewrite Hbase).
    rewrite Het.
    change (EventType_value SPIKE_EVENT =? EventType_value PROCESSOR_EVENT) with false.
    rewrite Z.eqb_refl.
    unfold SpikeEvent.deserializeFromMessage. rewrite Hread. codec_step.
    rewrite Het, Z.eqb_refl. codec_step.
    unfold SpikeEvent.header_of; cbv zeta.
    cbn [Header.subType Header.sourceProcessorID Header.sourceSubStream
         Header.sourceEventIndex Header.virtualChannel Header.timestamp].
    rewrite Hci, !Z.eqb_refl. codec_step.
    unfold payload.
    rewrite SpikeEventSpec.read_write_float by assumption. codec_step.
    rewrite <- Hlen, Nat2Z.id.
    rewrite <- (app_nil_r (flat_map _ _)).
    rewrite SpikeEventSpec.read_write_floats by assumption. codec_step.
    rewrite <- Hbase. destruct e as [[bt ts] ci' thr data]; simpl in *. now subst.
Qed.

(** C2.  An event of any of the four classes that was built against a
    descriptor of the matching kind and type is written by [serialize]
    into any buffer that can hold its packet, and reading the packet back
    with the same descriptor yields the event: equal time stamp, channel,
    type, descriptor and payload. *)
Theorem serialize_deserialize_round_trip (d : descriptor) (e : event) (dstSize : Z) :
  built_against d e ->
  packetSize d <= dstSize ->
  exists msg,
    serialize e dstSize = Codec.Ok msg
    /\ Z.of_nat (List.length msg) = packetSize d
    /\ deserializeFromMessage msg d = Codec.Ok e.
Proof.
  intros Hbuilt Hsz.
  destruct d as [ci | ci], e as [e | e | e | e]; try contradiction.
  - now apply TTL_round_trip.
  - now apply Text_round_trip.
  - now apply Binary_round_trip.
  - now apply Spike_round_trip.
Qed.

Lemma serialize_deserialize_round_trip_witness :
  built_against (Event_channel Samples.ttl_channel)
                (Samples.ttl_event [Byte.xff; Byte.xff])
  /\ packetSize (Event_channel Samples.ttl_channel) <= 20
  /\ exists msg,
       serialize (Samples.ttl_event [Byte.xff; Byte.xff]) 20 = Codec.Ok msg
       /\ Z.of_nat (List.length msg) = packetSize (Event_channel Samples.ttl_channel)
       /\ deserializeFromMessage msg (Event_channel Samples.ttl_channel)
          = Codec.Ok (Samples.ttl_event [Byte.xff; Byte.xff]).
Proof.
  assert (Hbuilt : built_against (Event_channel Samples.ttl_channel)
                     (Samples.ttl_event [Byte.xff; Byte.xff])).
  { unfold built_against, Event_built_against, identified,
      CTypes.is_uint16, CTypes.is_uint64, CTypes.in_range.
    vm_compute. repeat split; congruence. }
  assert (Hsize : packetSize (Event_channel Samples.ttl_channel) <= 20)
    by (vm_compute; congruence).
  split; [exact Hbuilt |]. split; [exact Hsize |].
  exact (serialize_deserialize_round_trip _ _ 20 Hbuilt Hsize).
Defined.

(** The representative payloads of the design document, run through the
    codec: TTL words of all zeros and of all ones, the empty text and a
    text of the full declared length, a full array, and a waveform with a
    negative zero and the least subnormal number. *)
Lemma round_trip_payloads :
  there_and_back (Event_channel Samples.ttl_channel)
    (Samples.ttl_event [Byte.x00; Byte.x00])
  = Codec.Ok (Samples.ttl_event [Byte.x00; Byte.x00])
  /\ there_and_back (Event_channel Samples.ttl_channel)
       (Samples.ttl_event [Byte.xff; Byte.xff])
     = Codec.Ok (Samples.ttl_event [Byte.xff; Byte.xff])
  /\ there_and_back (Event_channel Samples.text_channel) (Samples.text_event "")
     = Codec.Ok (Samples.text_event "")
  /\ there_and_back (Event_channel Samples.text_channel) (Samples.text_event "0123456789")
     = Codec.Ok (Samples.text_event "0123456789")
  /\ there_and_back (Event_channel Samples.int16_channel)
       (Samples.int16_event [Byte.xff; Byte.x7f; Byte.x00; Byte.x80; Byte.x01; Byte.x00])
     = Codec.Ok (Samples.int16_event
                   [Byte.xff; Byte.x7f; Byte.x00; Byte.x80; Byte.x01; Byte.x00])
  /\ there_and_back (Spike_channel Samples.stereotrode) Samples.spike_event
     = Codec.Ok Samples.spike_event.
Proof. vm_compute. repeat split. Qed.

(** The text example of the design document: over a descriptor of length
    10 the text [hi] is written with its terminator and padding as a
    payload of 11 bytes after the 18 bytes of the header. *)
Lemma text_payload_11_bytes :
  exists msg,
    serialize (Samples.text_event "hi") 64 = Codec.Ok msg
    /\ skipn 18 msg
       = [Byte.x68; Byte.x69; Byte.x00; Byte.x00; Byte.x00; Byte.x00;
          Byte.x00; Byte.x00; Byte.x00; Byte.x00; Byte.x00].
Proof. eexists. split; vm_compute; reflexivity. Qed.

(** What the codec refuses: a buffer that is too small, a text with more
    bytes than the descriptor declares, a TTL word of the wrong size, and
    a packet read with a descriptor of another type. *)
Lemma codec_failures :
  serialize (Samples.ttl_event [Byte.xff; Byte.xff]) 19 = Codec.Failed Codec.CodecError
  /\ serialize (Samples.text_event "0123456789A") 64 = Codec.Failed Codec.CodecError
  /\ serialize (Samples.ttl_event [Byte.xff]) 64 = Codec.Failed Codec.CodecError
  /\ (msg <- serialize (Samples.ttl_event [Byte.xff; Byte.xff]) 64 ;;
      deserializeFromMessage msg (Event_channel Samples.text_channel))
     = Codec.Failed Codec.SchemaMismatch.
Proof. vm_compute. repeat split. Qed.

End RoundTrip.

(* ================================================================== *)
(** * Further properties of the channel descriptors *)
(* ================================================================== *)

Module HistorySequences.
Import HistoryObject Calls.

Lemma append_assoc (a b c : string) : ((a ++ b) ++ c = a ++ (b ++ c))%string.
Proof. induction a as [| x a IH]; simpl; [reflexivity | now rewrite IH]. Qed.

Lemma append_empty_r (a : string) : (a ++ "" = a)%string.
Proof. induction a as [| x a IH]; simpl; [reflexivity | now rewrite IH]. Qed.

Lemma isEmpty_append (a b : string) :
  isEmpty (a ++ b) = isEmpty a && isEmpty b.
Proof. now destruct a. Qed.

Lemma concat_tail_of (e : string) (rest : list string) :
  String.concat " -> " (e :: rest) = (e ++ tail_of rest)%string.
Proof.
  revert e. induction rest as [| e' rest IH]; intros e.
  - simpl. now rewrite append_empty_r.
  - change (String.concat " -> " (e :: e' :: rest))
      with (e ++ " -> " ++ String.concat " -> " (e' :: rest))%string.
    rewrite IH. reflexivity.
Qed.

Lemma addAll_nonempty (s : string) (entries : list string) :
  isEmpty s = false ->
  getHistoricString (addAllToHistoricString {| m_historicString := s |} entries)
  = (s ++ tail_of entries)%string.
Proof.
  revert s. induction entries as [| e rest IH]; intros s Hs.
  - simpl. now rewrite append_empty_r.
  - unfold addAllToHistoricString in *. cbn [fold_left].
    unfold addToHistoricString at 2. cbn [m_historicString]. rewrite Hs.
    rewrite IH.
    + cbn [tail_of]. now rewrite !append_assoc.
    + rewrite isEmpty_append, Hs. reflexivity.
Qed.

(** X1.  The history after a sequence of entries, added to an empty
    history one by one, is the entries joined by [" -> "], from the first
    entry that is not empty on: empty entries that come first leave no
    trace, later ones leave their separator. *)
Theorem history_joins_entries (entries : list string) :
  getHistoricString (addAllToHistoricString {| m_historicString := "" |} entries)
  = String.concat " -> " (drop_leading_empty entries).
Proof.
  induction entries as [| e rest IH]; [reflexivity |].
  cbn [drop_leading_empty]. destruct (isEmpty e) eqn:He.
  - apply HistoryObjectSpec.isEmpty_true in He. subst e. exact IH.
  - rewrite concat_tail_of.
    unfold addAllToHistoricString. cbn [fold_left].
    change (addToHistoricString {| m_historicString := "" |} e)
      with {| m_historicString := e |}.
    now apply addAll_nonempty.
Qed.

Lemma prefix_trans (a b c : string) :
  String.prefix a b = true -> String.prefix b c = true -> String.prefix a c = true.
Proof.
  revert b c. induction a as [| x a IH]; intros b c Hab Hbc; [now destruct c |].
  destruct b as [| y b]; [discriminate |].
  destruct c as [| z c]; [discriminate |].
  simpl in *.
  destruct (ascii_dec x y) as [-> |]; [| discriminate].
  destruct (ascii_dec y z) as [-> |]; [| discriminate].
  destruct (ascii_dec z z); [| congruence]. eauto.
Qed.

Lemma prefix_refl (a : string) : String.prefix a a = true.
Proof. induction a as [| x a IH]; simpl; [reflexivity |]. destruct (ascii_dec x x); congruence. Qed.

Lemma add_prefix (h : HistoryObject.t) (e : string) :
  String.prefix (getHistoricString h) (getHistoricString (addToHistoricString h e)) = true.
Proof.
  destruct h as [s]. unfold addToHistoricString, getHistoricString; simpl.
  destruct s; simpl; [now destruct e |].
  destruct (ascii_dec a a); [| congruence]. apply HistoryObjectSpec.prefix_append.
Qed.

Lemma add_length (h : HistoryObject.t) (e : string) :
  (String.length (getHistoricString h)
   <= String.length (getHistoricString (addToHistoricString h e)))%nat.
Proof.
  destruct h as [s]. unfold addToHistoricString, getHistoricString; simpl.
  destruct s; simpl; [lia |]. rewrite HistoryObjectSpec.length_append. lia.
Qed.

(** X2.  A sequence of additions only extends a history: the history
    before is a prefix of the history after, which is not shorter, and
    which is empty only when the history was empty and every entry is. *)
Theorem history_only_grows (h : HistoryObject.t) (entries : list string) :
  let after := getHistoricString (addAllToHistoricString h entries) in
  String.prefix (getHistoricString h) after = true
  /\ (String.length (getHistoricString h) <= String.length after)%nat
  /\ (after = ""%string <-> getHistoricString h = ""%string /\ Forall (fun e => e = ""%string) entries).
Proof.
  cbv zeta. revert h. induction entries as [| e rest IH]; intros h.
  - simpl. split; [apply prefix_refl |]. split; [lia |]. split; [auto | tauto].
  - unfold addAllToHistoricString in *. cbn [fold_left].
    destruct (IH (addToHistoricString h e)) as (Hp & Hl & Hiff).
    split; [eapply prefix_trans; [apply add_prefix | exact Hp] |].
    split; [pose proof (add_length h e); lia |].
    rewrite Hiff. destruct h as [s]. unfold addToHistoricString, getHistoricString; simpl.
    destruct s as [| c s]; simpl.
    + split.
      * intros [-> Hr]. split; [reflexivity | now constructor].
      * intros [_ Hall]. inversion Hall; subst. auto.
    + split; [intros [H _]; discriminate | intros [H _]; discriminate].
Qed.

End HistorySequences.

Module DataChannelSequences.
Import DataChannel Calls.OnDataChannel.

Section WithMetaData.
Variable MetaDataInfoObject : Type.
Implicit Type ch : DataChannel.t MetaDataInfoObject.

(** X3.  A copy equals the channel it is made of exactly when that
    channel is enabled, not monitored and not recording. *)
Theorem copy_faithful_iff ch :
  copy ch = ch
  <-> isEnabled ch = true /\ isMonitored ch = false /\ getRecordState ch = false.
Proof.
  destruct ch as [c m h ty bv en mo re]; unfold copy, isEnabled, isMonitored, getRecordState; simpl.
  split.
  - intros H. injection H as -> -> ->. auto.
  - intros (-> & -> & ->). reflexivity.
Qed.

(** X4.  [reset] is idempotent and absorbs a copy made before or after
    it. *)
Theorem reset_absorbs_copy ch :
  reset (reset ch) = reset ch
  /\ reset (copy ch) = reset ch
  /\ copy (reset ch) = reset ch.
Proof. repeat split. Qed.

(** X5.  No sequence of calls, of the channel's own setters, of [reset]
    and of the setters it inherits, changes the type, the node, the
    provenance, the indices or the meta data of a data channel, and the
    history it had remains a prefix of its history. *)
Theorem calls_keep_identity ch (calls : list call) :
  let ch' := run MetaDataInfoObject ch calls in
  getChannelType ch' = getChannelType ch
  /\ InfoObjectCommon.node (common ch') = InfoObjectCommon.node (common ch)
  /\ InfoObjectCommon.source (common ch') = InfoObjectCommon.source (common ch)
  /\ InfoObjectCommon.getSourceIndex (common ch') = InfoObjectCommon.getSourceIndex (common ch)
  /\ InfoObjectCommon.getSourceTypeIndex (common ch') = InfoObjectCommon.getSourceTypeIndex (common ch)
  /\ metadata ch' = metadata ch
  /\ String.prefix (HistoryObject.getHistoricString (history ch))
                   (HistoryObject.getHistoricString (history ch')) = true.
Proof.
  cbv zeta. revert ch. induction calls as [| c calls IH]; intros ch.
  - simpl. repeat split. apply HistorySequences.prefix_refl.
  - unfold run in *. cbn [fold_left].
    destruct (IH (perform MetaDataInfoObject ch c)) as (H1 & H2 & H3 & H4 & H5 & H6 & H7).
    rewrite H1, H2, H3, H4, H5, H6.
    destruct c; repeat split; try exact H7.
    eapply HistorySequences.prefix_trans; [| exact H7].
    apply HistorySequences.add_prefix.
Qed.

End WithMetaData.
End DataChannelSequences.

Module EventChannelSequences.
Import EventChannel Calls.OnEventChannel.

Section WithSizeT.
Variable size_t_bits : Z.

(** X6.  Of two [setNumChannels] calls, and of two [setLength] calls,
    the second one decides; a [setNumChannels] and a [setLength] call can
    be made in either order. *)
Theorem sizing_calls_compose (ch : t) (a b : Z) :
  setNumChannels size_t_bits (setNumChannels size_t_bits ch a) b
  = setNumChannels size_t_bits ch b
  /\ setLength size_t_bits (setLength size_t_bits ch a) b
     = setLength size_t_bits ch b
  /\ setLength size_t_bits (setNumChannels size_t_bits ch a) b
     = setNumChannels size_t_bits (setLength size_t_bits ch b) a.
Proof.
  destruct ch as [c ty n l d r].
  unfold setNumChannels, setLength; cbv zeta; simpl.
  destruct ty; simpl; repeat split.
Qed.

Lemma perform_type (ch : t) (c : call) :
  getChannelType (perform size_t_bits ch c) = getChannelType ch
  /\ common (perform size_t_bits ch c) = common ch.
Proof.
  destruct c; simpl.
  - pose proof (EventChannelSpec.setNumChannels_stores size_t_bits ch numChannels) as [_ H].
    split; [exact H |].
    unfold setNumChannels; cbv zeta; simpl.
    destruct (EventChannelTypes_eqb (m_type ch) TTL); reflexivity.
  - pose proof (EventChannelSpec.setLength_frame size_t_bits ch length) as (H & _ & _ & H').
    auto.
  - auto.
Qed.

(** X7.  No sequence of [setNumChannels], [setLength] and
    [setShouldBeRecorded] calls changes the type or the identity of an
    event channel. *)
Theorem calls_keep_type_and_identity (ch : t) (calls : list call) :
  getChannelType (run size_t_bits ch calls) = getChannelType ch
  /\ common (run size_t_bits ch calls) = common ch.
Proof.
  revert ch. induction calls as [| c calls IH]; intros ch; [auto |].
  unfold run in *. cbn [fold_left].
  destruct (IH (perform size_t_bits ch c)) as (Hty & Hc).
  destruct (perform_type ch c) as [Hty1 Hc1].
  rewrite Hty, Hc. auto.
Qed.

Lemma perform_other_call (ch : t) (c : call) :
  resizes (getChannelType ch) c = false ->
  getLength (perform size_t_bits ch c) = getLength ch
  /\ getDataSize (perform size_t_bits ch c) = getDataSize ch.
Proof.
  unfold resizes, getChannelType, getLength, getDataSize.
  destruct c as [n | L | status]; simpl; [| | auto].
  - unfold setNumChannels; cbv zeta; simpl.
    destruct (m_type ch); simpl; auto; discriminate.
  - unfold setLength; cbv zeta; simpl.
    destruct (m_type ch); simpl; auto; discriminate.
Qed.

(** X8.  Length and data size of a channel change only through the
    sizing call of its type, [setNumChannels] for TTL and [setLength] for
    the others: a sequence of calls without it leaves both as they are. *)
Theorem only_the_sizing_call_resizes (ch : t) (calls : list call) :
  forallb (fun c => negb (resizes (getChannelType ch) c)) calls = true ->
  getLength (run size_t_bits ch calls) = getLength ch
  /\ getDataSize (run size_t_bits ch calls) = getDataSize ch.
Proof.
  revert ch. induction calls as [| c calls IH]; intros ch Hcalls; [auto |].
  cbn [forallb] in Hcalls. apply andb_true_iff in Hcalls.
  destruct Hcalls as [Hc Hcalls]. apply negb_true_iff in Hc.
  unfold run in *. cbn [fold_left].
  destruct (perform_type ch c) as [Hty _].
  destruct (IH (perform size_t_bits ch c)) as [Hl Hd];
    [now rewrite Hty |].
  destruct (perform_other_call ch c Hc) as [Hl1 Hd1].
  rewrite Hl, Hd. auto.
Qed.

(** X9.  As long as [n + 7] fits [unsigned int], the data size of a TTL
    channel of [n] lines is its length and has a bit for every line and
    no byte to spare: [n <= 8 * dataSize < n + 8]. *)
Theorem TTL_data_size_covers_lines (ch : t) (n : Z) :
  getChannelType ch = TTL ->
  CTypes.unsigned_int_bits <= size_t_bits ->
  0 <= n <= 2 ^ 32 - 8 ->
  let bytes := getDataSize (setNumChannels size_t_bits ch n) in
  bytes = getLength (setNumChannels size_t_bits ch n)
  /\ n <= 8 * bytes < n + 8.
Proof.
  intros Hty Hsz Hn. cbv zeta.
  destruct (EventChannelSpec.setNumChannels_TTL_no_overflow size_t_bits ch n Hty Hsz Hn)
    as [Hl Hd].
  rewrite Hl, Hd. split; [reflexivity |].
  pose proof (EventChannelSpec.ceil_div8_least n). lia.
Qed.

(** X10.  After [setLength(L)] on a channel that is not TTL, on a target
    whose [size_t] has 35 bits or more, the length can be read back from
    the data size: the data size less the terminator for text, the data
    size divided by the element size, without remainder, for the arrays;
    the data size is not below the length. *)
Theorem length_recovered_from_data_size (ch : t) (L : Z) :
  35 <= size_t_bits ->
  CTypes.is_unsigned_int L ->
  getChannelType ch <> TTL ->
  let ch' := setLength size_t_bits ch L in
  (if EventChannelTypes_eqb (getChannelType ch) TEXT
   then getDataSize ch' - 1
   else getDataSize ch' / getTypeByteSize (getChannelType ch')) = getLength ch'
  /\ (getChannelType ch <> TEXT ->
      getDataSize ch' mod getTypeByteSize (getChannelType ch') = 0)
  /\ getLength ch' <= getDataSize ch' < 2 ^ 35.
Proof.
  unfold CTypes.is_unsigned_int, CTypes.in_range, CTypes.unsigned_int_bits.
  destruct ch as [c ty n l d r].
  unfold getChannelType, getLength, getDataSize. cbn [m_type]. intros Hsz HL Hty.
  assert (Hpow : 2 ^ 35 <= 2 ^ size_t_bits) by (apply Z.pow_le_mono_r; lia).
  unfold setLength, CTypes.wrap; cbv zeta.
  destruct ty; try congruence;
    cbn [EventChannelTypes_eqb set_length set_dataSize m_type m_length
         m_dataSize getTypeByteSize];
    match goal with
    | |- context [(L * ?k) mod _] => rewrite (Z.mod_small (L * k)) by lia
    end;
    try rewrite (Z.mod_small (L * 1 + 1)) by lia.
  all: split; [try rewrite Z.div_mul by lia; lia |].
  all: split; [intros Hne; try congruence; apply Z.mod_mul; lia | lia].
Qed.

End WithSizeT.
End EventChannelSequences.

Module DataChannelObservations.
Import DataChannel Calls.OnDataChannel.

Section WithMetaData.
Variable MetaDataInfoObject : Type.
Implicit Type ch : DataChannel.t MetaDataInfoObject.

(** A getter after a sequence of calls, given what one call does to it. *)
Lemma observed_after_run {A : Type} (get : DataChannel.t MetaDataInfoObject -> A)
  (written : call -> option A) :
  (forall ch c, get (perform MetaDataInfoObject ch c)
                = match written c with Some v => v | None => get ch end) ->
  forall calls ch, get (run MetaDataInfoObject ch calls) = last_written written calls (get ch).
Proof.
  intros Hstep calls. induction calls as [| c calls IH]; intros ch; [reflexivity |].
  unfold run in *. cbn [fold_left last_written]. now rewrite IH, Hstep.
Qed.

(** X11.  After any sequence of calls every getter of a data channel
    returns the value of the last call that writes its member, [reset]
    writing the defaults of five of them, or the value from before the
    sequence when no call writes it: no call writes a member of another
    getter. *)
Theorem getters_see_last_write ch (calls : list call) :
  let ch' := run MetaDataInfoObject ch calls in
  let named ch := InfoObjectCommon.named (common ch) in
  NamedInfoObject.getName (named ch')
  = last_written writes_name calls (NamedInfoObject.getName (named ch))
  /\ NamedInfoObject.getDescriptor (named ch')
     = last_written writes_descriptor calls (NamedInfoObject.getDescriptor (named ch))
  /\ NamedInfoObject.getDescription (named ch')
     = last_written writes_description calls (NamedInfoObject.getDescription (named ch))
  /\ getBitVolts ch' = last_written writes_bitVolts calls (getBitVolts ch)
  /\ getSampleRate ch' = last_written writes_sampleRate calls (getSampleRate ch)
  /\ isEnabled ch' = last_written writes_enabled calls (isEnabled ch)
  /\ isMonitored ch' = last_written writes_monitored calls (isMonitored ch)
  /\ getRecordState ch' = last_written writes_recording calls (getRecordState ch).
Proof.
  cbv zeta.
  repeat split;
    match goal with
    | |- ?g (run _ _ _) = last_written ?w _ _ =>
        apply (observed_after_run g w)
    | |- ?g (?f (?h (run _ _ _))) = last_written ?w _ _ =>
        apply (observed_after_run (fun ch => g (f (h ch))) w)
    end;
    intros ch0 c; destruct c; reflexivity.
Qed.

End WithMetaData.
End DataChannelObservations.

Module SpikeChannelConstruction.
Import SpikeChannel.

(** X12.  [setNumSamples] stores both sample counts, and the total is
    their sum exactly when the sum fits [unsigned int]; otherwise it is
    the sum less [2^32]. *)
Theorem total_samples_exact_iff (ch : t) (pre post : Z) :
  CTypes.is_unsigned_int pre -> CTypes.is_unsigned_int post ->
  getPrePeakSamples (setNumSamples ch pre post) = pre
  /\ getPostPeakSamples (setNumSamples ch pre post) = post
  /\ (getTotalSamples (setNumSamples ch pre post) = pre + post <-> pre + post < 2 ^ 32)
  /\ (2 ^ 32 <= pre + post ->
      getTotalSamples (setNumSamples ch pre post) = pre + post - 2 ^ 32).
Proof.
  unfold CTypes.is_unsigned_int, CTypes.in_range, CTypes.unsigned_int_bits.
  intros Hpre Hpost.
  unfold getTotalSamples, setNumSamples, getPrePeakSamples, getPostPeakSamples,
    CTypes.wrap, CTypes.unsigned_int_bits; cbn [m_numPreSamples m_numPostSamples].
  split; [reflexivity |]. split; [reflexivity |].
  change (2 ^ 32) with 4294967296 in *.
  split; [split |]; intros H; Z.div_mod_to_equations; lia.
Qed.

Section WithMetaData.
Variable MetaDataInfoObject : Type.
Implicit Type sourceChannels : list (DataChannel.t MetaDataInfoObject).

(** X13.  With as many source channels as the electrode type has
    channels the construction succeeds, and the spike channel refers to
    each source channel, in order, by its source node, its sub-processor
    and its source index; it has as many references as channels. *)
Theorem ctor_records_source_channels (init : t) (type : ElectrodeTypes)
  (idx typeidx : Z) (src : GenericProcessor.t) sourceChannels (subproc : Z) :
  m_sourceInfo init = [] ->
  Z.of_nat (List.length sourceChannels) = getNumChannels type ->
  exists ch,
    ctor init type idx typeidx src sourceChannels subproc = Constructed ch
    /\ getChannelType ch = type
    /\ Z.of_nat (List.length (getSourceChannelInfo ch)) = getNumChannels_of ch
    /\ forall i,
         nth_error (getSourceChannelInfo ch) i
         = option_map
             (fun chan =>
                {| processorID := InfoObjectCommon.getSourceNodeID (DataChannel.common chan);
                   subProcessorID := InfoObjectCommon.getSubProcessorIdx (DataChannel.common chan);
                   channelIDX := InfoObjectCommon.getSourceIndex (DataChannel.common chan) |})
             (nth_error sourceChannels i).
Proof.
  intros Hinit Hn.
  rewrite SpikeChannelSpec.getNumChannels_channelCountFor in Hn.
  destruct (SpikeChannelSpec.ctor_site_count_match MetaDataInfoObject init type idx typeidx
              src sourceChannels subproc Hn) as (ch & Hctor & Hty & Hinfo).
  exists ch. rewrite Hinit in Hinfo. simpl in Hinfo.
  split; [exact Hctor |]. split; [exact Hty |]. split.
  - unfold getNumChannels_of. unfold getChannelType in Hty.
    rewrite Hinfo, length_map, Hty, SpikeChannelSpec.getNumChannels_channelCountFor.
    exact Hn.
  - intros i. rewrite Hinfo, nth_error_map. reflexivity.
Qed.

Lemma info_of_perform (chan : DataChannel.t MetaDataInfoObject)
  (c : Calls.OnDataChannel.call) :
  info_of (Calls.OnDataChannel.perform MetaDataInfoObject chan c) = info_of chan.
Proof. destruct c; reflexivity. Qed.

Lemma info_of_run (calls : list Calls.OnDataChannel.call)
  (chan : DataChannel.t MetaDataInfoObject) :
  info_of (Calls.OnDataChannel.run MetaDataInfoObject chan calls) = info_of chan.
Proof.
  revert chan. induction calls as [| c calls IH]; intros chan; [reflexivity |].
  unfold Calls.OnDataChannel.run in *. cbn [fold_left].
  now rewrite IH, info_of_perform.
Qed.

(** X14.  The construction of a spike channel reads the identity of its
    source channels only: built from copies of them, to which any
    sequence of calls has been made, it is the same spike channel. *)
Theorem ctor_reads_identity_only (init : t) (type : ElectrodeTypes)
  (idx typeidx : Z) (src : GenericProcessor.t) sourceChannels (subproc : Z)
  (calls : list Calls.OnDataChannel.call) :
  ctor init type idx typeidx src
    (map (fun chan => Calls.OnDataChannel.run MetaDataInfoObject (DataChannel.copy chan) calls)
         sourceChannels)
    subproc
  = ctor init type idx typeidx src sourceChannels subproc.
Proof.
  unfold ctor; cbv zeta. rewrite length_map.
  rewrite !SpikeChannelSpec.fold_left_add, map_map.
  replace (map (fun chan => info_of (Calls.OnDataChannel.run MetaDataInfoObject
                                        (DataChannel.copy chan) calls)) sourceChannels)
    with (map info_of sourceChannels); [reflexivity |].
  apply map_ext. intros chan. now rewrite info_of_run.
Qed.

End WithMetaData.
End SpikeChannelConstruction.

Module Constructors.

(** X15.  A channel constructed for a processor, with [uint16]
    arguments, reports the processor's node as its source node, the
    processor's name as both source type and source name, and the
    sub-processor and indices it was given; named attributes and sample
    rate are the ones of the in-class initialisers. *)
Theorem constructors_record_provenance (src : GenericProcessor.t)
  (idx typeidx subproc : Z) (init : InfoObjectCommon.t) :
  CTypes.is_uint16 (GenericProcessor.nodeId src) ->
  CTypes.is_uint16 idx -> CTypes.is_uint16 typeidx -> CTypes.is_uint16 subproc ->
  let c := InfoObjectCommon.ctor init idx typeidx src subproc in
  InfoObjectCommon.getSourceNodeID c = GenericProcessor.nodeId src
  /\ InfoObjectCommon.getSubProcessorIdx c = subproc
  /\ InfoObjectCommon.getSourceIndex c = idx
  /\ InfoObjectCommon.getSourceTypeIndex c = typeidx
  /\ SourceProcessorInfo.getSourceName (InfoObjectCommon.source c) = GenericProcessor.getName src
  /\ SourceProcessorInfo.getSourceType (InfoObjectCommon.source c) = GenericProcessor.getName src
  /\ InfoObjectCommon.named c = InfoObjectCommon.named init
  /\ InfoObjectCommon.getSampleRate c = InfoObjectCommon.getSampleRate init.
Proof.
  unfold CTypes.is_uint16, CTypes.in_range. intros Hid Hidx Hty Hsub. cbv zeta.
  unfold InfoObjectCommon.ctor, SourceProcessorInfo.ctor, CTypes.wrap; simpl.
  unfold InfoObjectCommon.getSourceNodeID, InfoObjectCommon.getSubProcessorIdx; simpl.
  rewrite !Z.mod_small by assumption. repeat split.
Qed.

End Constructors.

(** The properties above that have a precondition, on the sample
    objects. *)
Module OnSamples.

Lemma only_the_sizing_call_resizes_witness :
  EventChannel.getLength
    (Calls.OnEventChannel.run 64 Samples.ttl_channel
       [Calls.OnEventChannel.SetLength 5;
        Calls.OnEventChannel.SetShouldBeRecorded false;
        Calls.OnEventChannel.SetLength 7])
  = EventChannel.getLength Samples.ttl_channel
  /\ EventChannel.getDataSize
       (Calls.OnEventChannel.run 64 Samples.ttl_channel
          [Calls.OnEventChannel.SetLength 5;
           Calls.OnEventChannel.SetShouldBeRecorded false;
           Calls.OnEventChannel.SetLength 7])
     = EventChannel.getDataSize Samples.ttl_channel.
Proof.
  apply (EventChannelSequences.only_the_sizing_call_resizes 64 Samples.ttl_channel).
  reflexivity.
Defined.

Lemma TTL_data_size_covers_lines_witness :
  let bytes :=
    EventChannel.getDataSize
      (EventChannel.setNumChannels 64 (Samples.event_channel EventChannel.TTL) 12) in
  bytes = EventChannel.getLength
            (EventChannel.setNumChannels 64 (Samples.event_channel EventChannel.TTL) 12)
  /\ 12 <= 8 * bytes < 12 + 8.
Proof.
  apply (EventChannelSequences.TTL_data_size_covers_lines 64
           (Samples.event_channel EventChannel.TTL) 12).
  - reflexivity.
  - unfold CTypes.unsigned_int_bits. lia.
  - lia.
Defined.

Lemma length_recovered_from_data_size_witness :
  let ch := Samples.event_channel EventChannel.INT16_ARRAY in
  let ch' := EventChannel.setLength 64 ch 3 in
  (if EventChannel.EventChannelTypes_eqb (EventChannel.getChannelType ch) EventChannel.TEXT
   then EventChannel.getDataSize ch' - 1
   else EventChannel.getDataSize ch'
        / EventChannel.getTypeByteSize (EventChannel.getChannelType ch'))
  = EventChannel.getLength ch'
  /\ (EventChannel.getChannelType ch <> EventChannel.TEXT ->
      EventChannel.getDataSize ch'
      mod EventChannel.getTypeByteSize (EventChannel.getChannelType ch') = 0)
  /\ EventChannel.getLength ch' <= EventChannel.getDataSize ch' < 2 ^ 35.
Proof.
  apply (EventChannelSequences.length_recovered_from_data_size 64
           (Samples.event_channel EventChannel.INT16_ARRAY) 3).
  - lia.
  - unfold CTypes.is_unsigned_int, CTypes.in_range, CTypes.unsigned_int_bits. lia.
  - discriminate.
Defined.

Lemma total_samples_exact_iff_witness :
  SpikeChannel.getPrePeakSamples (SpikeChannel.setNumSamples Samples.stereotrode 8 32) = 8
  /\ SpikeChannel.getPostPeakSamples (SpikeChannel.setNumSamples Samples.stereotrode 8 32) = 32
  /\ (SpikeChannel.getTotalSamples (SpikeChannel.setNumSamples Samples.stereotrode 8 32)
      = 8 + 32 <-> 8 + 32 < 2 ^ 32)
  /\ (2 ^ 32 <= 8 + 32 ->
      SpikeChannel.getTotalSamples (SpikeChannel.setNumSamples Samples.stereotrode 8 32)
      = 8 + 32 - 2 ^ 32).
Proof.
  apply (SpikeChannelConstruction.total_samples_exact_iff Samples.stereotrode 8 32);
    unfold CTypes.is_unsigned_int, CTypes.in_range, CTypes.unsigned_int_bits; lia.
Defined.

Lemma ctor_records_source_channels_witness :
  exists ch,
    SpikeChannel.ctor Samples.spike_init SpikeChannel.STEREOTRODE 0 0 Samples.processor
      [Samples.data_channel; Samples.data_channel] 0 = Constructed ch
    /\ SpikeChannel.getChannelType ch = SpikeChannel.STEREOTRODE
    /\ Z.of_nat (List.length (SpikeChannel.getSourceChannelInfo ch))
       = SpikeChannel.getNumChannels_of ch
    /\ forall i,
         nth_error (SpikeChannel.getSourceChannelInfo ch) i
         = option_map
             (fun chan =>
                {| SpikeChannel.processorID :=
                     InfoObjectCommon.getSourceNodeID (DataChannel.common chan);
                   SpikeChannel.subProcessorID :=
                     InfoObjectCommon.getSubProcessorIdx (DataChannel.common chan);
                   SpikeChannel.channelIDX :=
                     InfoObjectCommon.getSourceIndex (DataChannel.common chan) |})
             (nth_error [Samples.data_channel; Samples.data_channel] i).
Proof.
  apply (SpikeChannelConstruction.ctor_records_source_channels unit Samples.spike_init
           SpikeChannel.STEREOTRODE 0 0 Samples.processor
           [Samples.data_channel; Samples.data_channel] 0);
    reflexivity.
Defined.

Lemma constructors_record_provenance_witness :
  let c := InfoObjectCommon.ctor Samples.common 3 0 Samples.processor 0 in
  InfoObjectCommon.getSourceNodeID c = GenericProcessor.nodeId Samples.processor
  /\ InfoObjectCommon.getSubProcessorIdx c = 0
  /\ InfoObjectCommon.getSourceIndex c = 3
  /\ InfoObjectCommon.getSourceTypeIndex c = 0
  /\ SourceProcessorInfo.getSourceName (InfoObjectCommon.source c)
     = GenericProcessor.getName Samples.processor
  /\ SourceProcessorInfo.getSourceType (InfoObjectCommon.source c)
     = GenericProcessor.getName Samples.processor
  /\ InfoObjectCommon.named c = InfoObjectCommon.named Samples.common
  /\ InfoObjectCommon.getSampleRate c = InfoObjectCommon.getSampleRate Samples.common.
Proof.
  apply (Constructors.constructors_record_provenance Samples.processor 3 0 0 Samples.common);
    unfold CTypes.is_uint16, CTypes.in_range; simpl; lia.
Defined.

End OnSamples.
